(** * A line-following robot simulation: sensing, control and kinematics

    Shallow embedding of [line_follower_sim.py].  The simulation runs one
    frame at a time: it samples five optical sensors on the rendered
    track, lets [decide_robot_action] choose a turn and a speed (keeping
    its mode and its lost-line counter in two module-level globals), and
    integrates the robot's pose.

    Numbers.  Python mixes [int] and [float] freely here.  Every number
    the controller handles is an integer or a half-integer of small
    magnitude, on which binary floating point is exact, so the numeric
    tower is embedded as the rationals [Q] with exact arithmetic; the
    lost-line counter, an [int], is a [Z].  The trigonometric functions
    of the [math] module are parameters of the kinematics section. *)

From Stdlib Require Import ZArith QArith Qround Qabs Lia Lqa List String Ascii
  Bool.
Import ListNotations.

Open Scope Q_scope.

(** ** Python arithmetic on exact numbers *)

Module Py.

(** [a % b]: the remainder has the sign of the divisor. *)
Definition mod_ (a b : Q) : Q := a - b * inject_Z (Qfloor (a / b)).

(** [int(x)]: truncation towards zero. *)
Definition int (x : Q) : Z := Z.quot (Qnum x) (Zpos (Qden x)).

(** [min(a, b)] and [max(a, b)] return their first argument unless the
    second is strictly smaller (resp. larger). *)
Definition min (a b : Q) : Q := if Qlt_le_dec b a then b else a.
Definition max (a b : Q) : Q := if Qlt_le_dec a b then b else a.

(** [a < b] as a test. *)
Definition ltb (a b : Q) : bool := if Qlt_le_dec a b then true else false.

(** [sum(xs)] starts from [0] and adds from the left. *)
Definition sum (xs : list Q) : Q := fold_left Qplus xs 0.

(** [any(bs)]. *)
Definition any (bs : list bool) : bool := existsb (fun b => b) bs.

End Py.

(** ** Raising and returning

    A computation either returns a value or raises.  [IndexError] is what
    [Surface.get_at] raises outside the surface. *)

Inductive exn : Type := IndexError.

Inductive result (A : Type) : Type :=
| Ok (a : A)
| Raise (e : exn).
Arguments Ok {A} a.
Arguments Raise {A} e.

Definition bind {A B : Type} (r : result A) (k : A -> result B) : result B :=
  match r with
  | Ok a => k a
  | Raise e => Raise e
  end.

Notation "x <- r ;; k" := (bind r (fun x => k))
  (at level 61, r at next level, right associativity).

(** ** Simulation parameters and colours *)

Definition WIDTH : Z := 800.
Definition HEIGHT : Z := 600.

Definition color : Type := (Z * Z * Z)%type.

Definition WHITE : color := (255, 255, 255)%Z.
Definition BLACK : color := (0, 0, 0)%Z.

Definition sensor_forward_distance : Q := 20.
Definition sensor_lateral_offset : Q := 15.

Definition BASE_ROBOT_SPEED : Q := 2.
Definition TURN_RATE : Q := 2.

Definition MAX_LOST_TIME_FRAMES : Z := 120.

(** ** The drawing surface

    [WIN] is a [WIDTH] x [HEIGHT] surface.  Only its pixel colours matter
    to the simulation; a surface is the function giving the colour of
    each pixel, and [get_at] is defined inside the surface only. *)

Definition Surface : Type := Z -> Z -> color.

Record Rect : Type := mkRect { rx : Z; ry : Z; rw : Z; rh : Z }.

Definition in_rect (r : Rect) (px py : Z) : bool :=
  ((rx r <=? px) && (px <? rx r + rw r) && (ry r <=? py) && (py <? ry r + rh r))%Z.

(** [WIN.fill(c)]. *)
Definition fill (c : color) : Surface := fun _ _ => c.

(** [pygame.draw.rect(WIN, c, r)], a filled rectangle. *)
Definition draw_rect (win : Surface) (c : color) (r : Rect) : Surface :=
  fun px py => if in_rect r px py then c else win px py.

(** [WIN.get_at((px, py))[:3]]. *)
Definition get_at (win : Surface) (px py : Z) : result color :=
  if ((0 <=? px) && (px <? WIDTH) && (0 <=? py) && (py <? HEIGHT))%Z
  then Ok (win px py)
  else Raise IndexError.

Definition draw_track (win : Surface) : Surface :=
  let track_thickness := 25%Z in
  let outer_rect := mkRect 100 100 600 400 in
  let inner_rect :=
    mkRect (100 + track_thickness) (100 + track_thickness)
           (600 - 2 * track_thickness) (400 - 2 * track_thickness) in
  draw_rect (draw_rect win BLACK outer_rect) WHITE inner_rect.

(** The surface the sensors read: each frame fills the window white and
    draws the track before sensing; the robot and the debug markers are
    drawn after it. *)
Definition WIN : Surface := draw_track (fill WHITE).

(** ** Sensors *)

Inductive SensorName : Type :=
| center | left | right | left_forward | right_forward.

(** The keys of the dictionaries built by [calculate_sensor_positions]
    and [sense_line], in insertion order. *)
Definition sensor_names : list SensorName :=
  [center; left; right; left_forward; right_forward].

(** [sense_line] gives every one of the five keys a value, so a
    dictionary of sensor states is a total function on the names. *)
Definition SensorStates : Type := SensorName -> bool.
Definition SensorPositions : Type := SensorName -> Q * Q.

Definition SENSOR_WEIGHTS (s : SensorName) : Q :=
  match s with
  | left_forward => -3.0
  | left => -2.0
  | center => 0.0
  | right => 2.0
  | right_forward => 3.0
  end.

Definition get_pixel_color (win : Surface) (x y : Q) : result color :=
  if ((0 <=? Py.int x) && (Py.int x <? WIDTH)
      && (0 <=? Py.int y) && (Py.int y <? HEIGHT))%Z
  then get_at win (Py.int x) (Py.int y)
  else Ok WHITE.

Definition is_on_line_with (color0 line_color : color) (tolerance : Z) : bool :=
  let '(r, g, b) := color0 in
  let '(lr, lg, lb) := line_color in
  let r_diff := Z.abs (r - lr) in
  let g_diff := Z.abs (g - lg) in
  let b_diff := Z.abs (b - lb) in
  ((r_diff <? tolerance) && (g_diff <? tolerance) && (b_diff <? tolerance))%Z.

(** [is_on_line(color)] with the default line colour and tolerance. *)
Definition is_on_line (color0 : color) : bool :=
  is_on_line_with color0 BLACK 80.

(** The loop of [sense_line] over the keys of the positions. *)
Fixpoint sense_loop (win : Surface) (sensor_positions : SensorPositions)
    (names : list SensorName) : result (list (SensorName * bool)) :=
  match names with
  | [] => Ok []
  | name :: rest =>
      let pos := sensor_positions name in
      color0 <- get_pixel_color win (fst pos) (snd pos) ;;
      states <- sense_loop win sensor_positions rest ;;
      Ok ((name, is_on_line color0) :: states)
  end.

Definition SensorName_eqb (a b : SensorName) : bool :=
  match a, b with
  | center, center | left, left | right, right
  | left_forward, left_forward | right_forward, right_forward => true
  | _, _ => false
  end.

(** Reading a key of the dictionary that was filled by the loop. *)
Fixpoint lookup (states : list (SensorName * bool)) (name : SensorName) : bool :=
  match states with
  | [] => false
  | (n, b) :: rest => if SensorName_eqb n name then b else lookup rest name
  end.

Definition sense_line (win : Surface) (sensor_positions : SensorPositions)
    : result SensorStates :=
  states <- sense_loop win sensor_positions sensor_names ;;
  Ok (lookup states).

(** ** The controller

    [ROBOT_MODE] and [LOST_LINE_COUNTER] are module-level globals that
    [decide_robot_action] reads and writes; they are threaded through
    it as a record. *)

Inductive Mode : Type := FOLLOW_LINE | LOST_LINE_SEARCH.

Record Globals : Type := mkGlobals {
  ROBOT_MODE : Mode;
  LOST_LINE_COUNTER : Z
}.

(** The values of the globals when the module is loaded. *)
Definition initial_globals : Globals := mkGlobals FOLLOW_LINE 0.

(** What [print] writes.  The debug line is kept structured: its text
    only formats the four values. *)
Inductive line : Type :=
| Text (s : string)
| Debug (mode : Mode) (states : list (SensorName * bool)) (turn speed : Q).

(** How a call of [decide_robot_action] ends: it returns the pair
    [(turn_angle, current_speed)], or it calls [pygame.quit()] and
    [exit()], which raises [SystemExit] from inside the function.  Both
    carry the globals as the call left them and the lines it printed. *)
Inductive Outcome : Type :=
| Return (turn_angle current_speed : Q) (g : Globals) (out : list line)
| SystemExit (g : Globals) (out : list line).

Definition values (sensor_states : SensorStates) : list bool :=
  map sensor_states sensor_names.

Definition items (sensor_states : SensorStates) : list (SensorName * bool) :=
  map (fun s => (s, sensor_states s)) sensor_names.

(** [sum(SENSOR_WEIGHTS[s] for s in sensor_states if sensor_states[s])] *)
Definition steering_error (sensor_states : SensorStates) : Q :=
  Py.sum (map SENSOR_WEIGHTS (filter sensor_states sensor_names)).

(** [max(-TURN_RATE * 3, min(TURN_RATE * 3, turn_angle))] *)
Definition clamp_turn (turn_angle : Q) : Q :=
  Py.max (- TURN_RATE * 3) (Py.min (TURN_RATE * 3) turn_angle).

(** The two prints and the [return] that end the function. *)
Definition finish (g : Globals) (sensor_states : SensorStates)
    (turn_angle current_speed : Q) (out : list line) : Outcome :=
  Return turn_angle current_speed g
    (out ++ [Debug (ROBOT_MODE g) (items sensor_states) turn_angle current_speed;
             Text "------------------------------"]).

Definition decide_robot_action (g : Globals) (sensor_states : SensorStates)
    : Outcome :=
  let turn_angle := 0 in
  let current_speed := BASE_ROBOT_SPEED in
  let any_sensor_on_line := Py.any (values sensor_states) in
  match ROBOT_MODE g with
  | FOLLOW_LINE =>
      if negb any_sensor_on_line then
        let current_speed := 0 in
        finish (mkGlobals LOST_LINE_SEARCH 0) sensor_states
          turn_angle current_speed
          [Text "MODE: Lost line from FOLLOW_LINE, entering search."]
      else if sensor_states center then
        let turn_angle := steering_error sensor_states * TURN_RATE in
        let turn_angle := clamp_turn turn_angle in
        finish (mkGlobals FOLLOW_LINE 0) sensor_states
          turn_angle current_speed []
      else
        let turn_angle :=
          if sensor_states left && negb (sensor_states right) then
            - TURN_RATE * 1.5
          else if sensor_states right && negb (sensor_states left) then
            TURN_RATE * 1.5
          else if sensor_states left_forward
                  && negb (sensor_states right_forward) then
            - TURN_RATE * 2
          else if sensor_states right_forward
                  && negb (sensor_states left_forward) then
            TURN_RATE * 2
          else
            clamp_turn (steering_error sensor_states * TURN_RATE) in
        finish (mkGlobals FOLLOW_LINE 0) sensor_states
          turn_angle current_speed []
  | LOST_LINE_SEARCH =>
      let current_speed := 0 in
      let counter := (LOST_LINE_COUNTER g + 1)%Z in
      let turn_angle :=
        if Py.ltb (Py.mod_ (inject_Z counter)
                           (inject_Z MAX_LOST_TIME_FRAMES / 2))
                  (inject_Z MAX_LOST_TIME_FRAMES / 4)
        then TURN_RATE * 1.5
        else - TURN_RATE * 1.5 in
      let '(g1, out) :=
        if any_sensor_on_line then
          (mkGlobals FOLLOW_LINE 0,
           [Text "MODE: Found line during search, resuming FOLLOW_LINE."])
        else (mkGlobals LOST_LINE_SEARCH counter, []) in
      if (LOST_LINE_COUNTER g1 >? MAX_LOST_TIME_FRAMES)%Z then
        SystemExit g1
          (out ++ [Text "Lost line for too long, stopping simulation."])
      else
        finish g1 sensor_states turn_angle current_speed out
  end.

(** The driver loop as the controller sees it: one call per frame, with
    that frame's sensor states; the raised [SystemExit] leaves the loop
    and ends the process.  [Halted n] says that the call of frame [n]
    (counting from 0) exited. *)
Inductive Run : Type :=
| Alive (g : Globals) (commands : list (Q * Q))
| Halted (frame : nat) (commands : list (Q * Q)).

Fixpoint drive_from (n : nat) (acc : list (Q * Q)) (g : Globals)
    (frames : list SensorStates) : Run :=
  match frames with
  | [] => Alive g acc
  | sensor_states :: rest =>
      match decide_robot_action g sensor_states with
      | Return turn speed g' _ => drive_from (S n) (acc ++ [(turn, speed)]) g' rest
      | SystemExit _ _ => Halted n acc
      end
  end.

Definition drive (g : Globals) (frames : list SensorStates) : Run :=
  drive_from 0 [] g frames.

(** All five sensors off the line. *)
Definition all_off : SensorStates := fun _ => false.

(** Only the listed sensors on the line. *)
Definition only (on : list SensorName) : SensorStates :=
  fun s => existsb (SensorName_eqb s) on.

(** ** Kinematics and the frame loop *)

Record Pose : Type := mkPose {
  robot_x : Q;
  robot_y : Q;
  robot_angle : Q
}.

(** [robot_pos = [100 + (25 / 2), 100 + (25 / 2)]], [robot_angle = 0]. *)
Definition initial_pose : Pose :=
  mkPose (100 + 25 / 2) (100 + 25 / 2) 0.

(** How one frame of the loop ends, and how the loop ends. *)
Inductive Frame : Type :=
| Next (p : Pose) (g : Globals)
| Exits
| Raises (e : exn).

Inductive Loop : Type :=
| Running (p : Pose) (g : Globals)
| Stopped (p : Pose) (g : Globals)
| Aborted
| Crashed (e : exn).

Section Kinematics.

(** [math.cos(math.radians(a))] and [math.sin(math.radians(a))] of an
    angle [a] in degrees. *)
Variables cos_deg sin_deg : Q -> Q.

Definition calculate_sensor_positions (robot_x robot_y robot_angle : Q)
    : SensorPositions :=
  let c := (robot_x + cos_deg robot_angle * sensor_forward_distance,
            robot_y + sin_deg robot_angle * sensor_forward_distance) in
  fun name =>
    match name with
    | center => c
    | left =>
        (fst c + cos_deg (robot_angle - 90) * sensor_lateral_offset,
         snd c + sin_deg (robot_angle - 90) * sensor_lateral_offset)
    | right =>
        (fst c + cos_deg (robot_angle + 90) * sensor_lateral_offset,
         snd c + sin_deg (robot_angle + 90) * sensor_lateral_offset)
    | left_forward =>
        (robot_x + cos_deg (robot_angle + 45) * sensor_forward_distance * 1.5,
         robot_y + sin_deg (robot_angle + 45) * sensor_forward_distance * 1.5)
    | right_forward =>
        (robot_x + cos_deg (robot_angle - 45) * sensor_forward_distance * 1.5,
         robot_y + sin_deg (robot_angle - 45) * sensor_forward_distance * 1.5)
    end.

(** Steps 4 and 5 of the loop body: the new angle, the new position
    from the new angle, the position kept inside the screen. *)
Definition integrate (p : Pose) (turn speed : Q) : Pose :=
  let robot_angle := robot_angle p + turn in
  let robot_angle := Py.mod_ robot_angle 360 in
  let x := robot_x p + cos_deg robot_angle * speed in
  let y := robot_y p + sin_deg robot_angle * speed in
  let x := Py.max 0 (Py.min (inject_Z (WIDTH - 1)) x) in
  let y := Py.max 0 (Py.min (inject_Z (HEIGHT - 1)) y) in
  mkPose x y robot_angle.

(** Steps 1 to 5 of the loop body (drawing does not feed back). *)
Definition frame (p : Pose) (g : Globals) : Frame :=
  let current_sensor_positions :=
    calculate_sensor_positions (robot_x p) (robot_y p) (robot_angle p) in
  match sense_line WIN current_sensor_positions with
  | Raise e => Raises e
  | Ok current_sensor_states =>
      match decide_robot_action g current_sensor_states with
      | Return turn speed g' _ => Next (integrate p turn speed) g'
      | SystemExit _ _ => Exits
      end
  end.

(** [while running]: each frame first polls the events ([true] when a
    QUIT event is among them), then runs its body to the end. *)
Fixpoint main_loop (events : list bool) (p : Pose) (g : Globals) : Loop :=
  match events with
  | [] => Running p g
  | quit :: rest =>
      match frame p g with
      | Next p' g' => if quit then Stopped p' g' else main_loop rest p' g'
      | Exits => Aborted
      | Raises e => Crashed e
      end
  end.

End Kinematics.

(** ** The specification's formulas

    Written after the specification's words, to be compared with what
    the code computes. *)

(** clamp(x, lo, hi). *)
Definition spec_clamp (x lo hi : Q) : Q :=
  if Qlt_le_dec x lo then lo else if Qlt_le_dec hi x then hi else x.

(** The steering error: the sum of the weights of the active sensors. *)
Definition spec_steering_error (s : SensorStates) : Q :=
  (if s center then 0 else 0)
  + (if s left then -2 else 0)
  + (if s right then 2 else 0)
  + (if s left_forward then -3 else 0)
  + (if s right_forward then 3 else 0).

(** The weighted-sum-and-clamp formula. *)
Definition spec_proportional_turn (s : SensorStates) : Q :=
  spec_clamp (spec_steering_error s * TURN_RATE)
             (- (3 * TURN_RATE)) (3 * TURN_RATE).

(** The four priority rules, in the listed order: a condition on the
    sensor states and the turn it commands. *)
Definition priority_rules : list ((SensorStates -> bool) * Q) :=
  [ (fun s => s left && negb (s right), - (1.5 * TURN_RATE));
    (fun s => s right && negb (s left), 1.5 * TURN_RATE);
    (fun s => s left_forward && negb (s right_forward), - (2 * TURN_RATE));
    (fun s => s right_forward && negb (s left_forward), 2 * TURN_RATE) ].

(** The first rule whose condition holds, if any. *)
Fixpoint first_match (rules : list ((SensorStates -> bool) * Q))
    (s : SensorStates) : option Q :=
  match rules with
  | [] => None
  | (cond, turn) :: rest => if cond s then Some turn else first_match rest s
  end.

Definition spec_priority_turn (s : SensorStates) : Q :=
  match first_match priority_rules s with
  | Some turn => turn
  | None => spec_proportional_turn s
  end.

(** The search sweep as a function of a tick count, period 60. *)
Definition spec_sweep (n : Z) : Q :=
  if (n mod 60 <? 30)%Z then 1.5 * TURN_RATE else - (1.5 * TURN_RATE).

(** The turn of a search frame, by the counter value its test reads. *)
Definition search_turn (counter : Z) : Q :=
  if (counter mod 60 <? 30)%Z then TURN_RATE * 1.5 else - TURN_RATE * 1.5.

(** The counter values tested by [k] search frames in a row that start
    with the counter at [c], and the commands they return. *)
Definition tested_counters (c : Z) (k : nat) : list Z :=
  map (fun j => (c + 1 + Z.of_nat j)%Z) (seq 0 k).

Definition search_commands (c : Z) (k : nat) : list (Q * Q) :=
  map (fun i => (search_turn i, 0)) (tested_counters c k).

(** The turn of a follow frame on which some sensor is on the line. *)
Definition follow_turn (s : SensorStates) : Q :=
  if s center then clamp_turn (steering_error s * TURN_RATE)
  else if s left && negb (s right) then - TURN_RATE * 1.5
  else if s right && negb (s left) then TURN_RATE * 1.5
  else if s left_forward && negb (s right_forward) then - TURN_RATE * 2
  else if s right_forward && negb (s left_forward) then TURN_RATE * 2
  else clamp_turn (steering_error s * TURN_RATE).

(** The call exits: in search mode, with no sensor on the line, when the
    incremented counter is past the limit. *)
Definition times_out (g : Globals) (s : SensorStates) : bool :=
  match ROBOT_MODE g with
  | FOLLOW_LINE => false
  | LOST_LINE_SEARCH =>
      negb (Py.any (values s))
      && (LOST_LINE_COUNTER g + 1 >? MAX_LOST_TIME_FRAMES)%Z
  end.

(** The frames that return: what they return and the globals they
    leave, by the branch taken. *)
Inductive returns (g : Globals) (s : SensorStates)
    : Q -> Q -> Globals -> Prop :=
| returns_lost :
    ROBOT_MODE g = FOLLOW_LINE ->
    Py.any (values s) = false ->
    returns g s 0 0 (mkGlobals LOST_LINE_SEARCH 0)
| returns_follow :
    ROBOT_MODE g = FOLLOW_LINE ->
    Py.any (values s) = true ->
    returns g s (follow_turn s) BASE_ROBOT_SPEED (mkGlobals FOLLOW_LINE 0)
| returns_found :
    ROBOT_MODE g = LOST_LINE_SEARCH ->
    Py.any (values s) = true ->
    returns g s (search_turn (LOST_LINE_COUNTER g + 1)) 0
      (mkGlobals FOLLOW_LINE 0)
| returns_search :
    ROBOT_MODE g = LOST_LINE_SEARCH ->
    Py.any (values s) = false ->
    (LOST_LINE_COUNTER g + 1 <= MAX_LOST_TIME_FRAMES)%Z ->
    returns g s (search_turn (LOST_LINE_COUNTER g + 1)) 0
      (mkGlobals LOST_LINE_SEARCH (LOST_LINE_COUNTER g + 1)).

(** The globals a run of the loop can reach from their initial values. *)
Inductive reachable : Globals -> Prop :=
| reachable_initial : reachable initial_globals
| reachable_step g s turn speed g' out :
    reachable g ->
    decide_robot_action g s = Return turn speed g' out ->
    reachable g'.

(** ** Further notions used to describe the code *)

(** The positions over the track: inside the outer rectangle of
    [draw_track] and not inside the inner one. *)
Definition on_track (x y : Q) : Prop :=
  (100 <= x < 700 /\ 100 <= y < 500)
  /\ ~ (125 <= x < 675 /\ 125 <= y < 475).

(** The outer rectangle of [draw_track], on pixels. *)
Definition in_outer_rect (px py : Z) : Prop :=
  (100 <= px < 700 /\ 100 <= py < 500)%Z.

(** The sensor states seen in a mirror: left and right exchanged. *)
Definition mirror (s : SensorStates) : SensorStates :=
  fun name =>
    match name with
    | center => s center
    | left => s right
    | right => s left
    | left_forward => s right_forward
    | right_forward => s left_forward
    end.

(** A position the clamp of the loop leaves as it is. *)
Definition on_screen (p : Pose) : Prop :=
  (0 <= robot_x p /\ robot_x p <= inject_Z (WIDTH - 1))
  /\ (0 <= robot_y p /\ robot_y p <= inject_Z (HEIGHT - 1)).

(** An angle that is a whole number of degrees in [0, 360). *)
Definition whole_angle (p : Pose) : Prop :=
  exists a : Z, robot_angle p == inject_Z a /\ (0 <= a < 360)%Z.

(** Steps 4 and 5 of the loop body over the commands of several frames
    in a row. *)
Definition integrate_all (cos_deg sin_deg : Q -> Q)
    (commands : list (Q * Q)) (p : Pose) : Pose :=
  fold_left (fun q c => integrate cos_deg sin_deg q (fst c) (snd c))
            commands p.

(** The total of the turns of a list of commands. *)
Definition total_turn (commands : list (Q * Q)) : Q :=
  Py.sum (map fst commands).

(** The sensor states the loop senses in its first [n] frames when no
    QUIT event comes, up to and including the frame that exits. *)
Fixpoint sensed_states (cos_deg sin_deg : Q -> Q) (n : nat) (p : Pose)
    (g : Globals) : list SensorStates :=
  match n with
  | O => []
  | S n' =>
      match sense_line WIN
              (calculate_sensor_positions cos_deg sin_deg
                 (robot_x p) (robot_y p) (robot_angle p)) with
      | Raise _ => []
      | Ok s =>
          s :: match decide_robot_action g s with
               | Return turn speed g' _ =>
                   sensed_states cos_deg sin_deg n'
                     (integrate cos_deg sin_deg p turn speed) g'
               | SystemExit _ _ => []
               end
      end
  end.

(** ** The debug markers

    [draw_sensors_debug] draws, for each sensor, a circle at the
    truncated position and a label next to it.  The keys of the
    dictionaries are the names below. *)

Definition sensor_name_string (name : SensorName) : string :=
  match name with
  | center => "center"
  | left => "left"
  | right => "right"
  | left_forward => "left_forward"
  | right_forward => "right_forward"
  end%string.

(** [str.upper()] on one ASCII character. *)
Definition upper (c : Ascii.ascii) : Ascii.ascii :=
  let n := Ascii.nat_of_ascii c in
  if (97 <=? n)%nat && (n <=? 122)%nat
  then Ascii.ascii_of_nat (n - 32)
  else c.

Definition SENSOR_COLOR_ACTIVE : color := (0, 255, 0)%Z.
Definition SENSOR_COLOR_PASSIVE : color := (255, 0, 0)%Z.

Record Marker : Type := mkMarker {
  circle_color : color;
  circle_center : Z * Z;
  label : string;
  label_corner : Z * Z
}.

(** The body of the loop of [draw_sensors_debug] for one sensor: what it
    draws.  [name[0]] raises [IndexError] on an empty name. *)
Definition debug_marker (name : string) (pos : Q * Q) (active : bool)
    : result Marker :=
  let sensor_radius := 6%Z in
  let color0 := if active then SENSOR_COLOR_ACTIVE else SENSOR_COLOR_PASSIVE in
  match name with
  | EmptyString => Raise IndexError
  | String c _ =>
      Ok (mkMarker color0 (Py.int (fst pos), Py.int (snd pos))
            (String (upper c)
               (String ":"%char (if active then "T" else "F")%string))
            (Py.int (fst pos) + sensor_radius + 2,
             Py.int (snd pos) - sensor_radius)%Z)
  end.

(** The side of the robot a sensor is on. *)
Inductive Side : Type := Middle | LeftSide | RightSide.

Definition side_of (name : SensorName) : Side :=
  match name with
  | center => Middle
  | left | left_forward => LeftSide
  | right | right_forward => RightSide
  end.

(** ** Facts about the arithmetic *)

Lemma mod_inject_Z (c m : Z) :
  (0 < m)%Z -> Py.mod_ (inject_Z c) (inject_Z m) == inject_Z (c mod m).
Proof.
  intros Hm. unfold Py.mod_.
  rewrite <- Zdiv_Qdiv, Z.mod_eq by lia.
  unfold Zminus. rewrite inject_Z_plus, inject_Z_opp, inject_Z_mult. ring.
Qed.

Lemma mod_comp (a a' b b' : Q) :
  a == a' -> b == b' -> Py.mod_ a b == Py.mod_ a' b'.
Proof.
  intros Ha Hb. unfold Py.mod_.
  assert (Hf : Qfloor (a / b) = Qfloor (a' / b')).
  { apply Qfloor_comp. rewrite Ha, Hb. reflexivity. }
  rewrite Hf, Ha, Hb. reflexivity.
Qed.

Lemma mod_range (a b : Q) : 0 < b -> 0 <= Py.mod_ a b /\ Py.mod_ a b < b.
Proof.
  intros Hb. unfold Py.mod_.
  pose proof (Qfloor_le (a / b)) as Hlo.
  pose proof (Qlt_floor (a / b)) as Hhi.
  rewrite inject_Z_plus in Hhi.
  set (f := inject_Z (Qfloor (a / b))) in *.
  assert (Hab : a == (a / b) * b) by (field; lra).
  split.
  - assert (f * b <= (a / b) * b) by (apply Qmult_le_compat_r; lra). lra.
  - assert ((a / b) * b < (f + inject_Z 1) * b)
      by (apply Qmult_lt_compat_r; lra).
    change (inject_Z 1) with 1 in *. lra.
Qed.

Lemma ltb_comp (a a' b b' : Q) :
  a == a' -> b == b' -> Py.ltb a b = Py.ltb a' b'.
Proof.
  intros Ha Hb. unfold Py.ltb.
  destruct (Qlt_le_dec a b), (Qlt_le_dec a' b'); try reflexivity; lra.
Qed.

Lemma clamp_is_spec_clamp (x lo hi : Q) :
  lo <= hi -> Py.max lo (Py.min hi x) == spec_clamp x lo hi.
Proof.
  intros H. unfold Py.max, Py.min, spec_clamp.
  destruct (Qlt_le_dec x hi), (Qlt_le_dec x lo), (Qlt_le_dec hi x);
    try destruct (Qlt_le_dec lo x); try destruct (Qlt_le_dec lo hi); lra.
Qed.

Lemma clamp_range (x lo hi : Q) :
  lo <= hi -> lo <= Py.max lo (Py.min hi x) /\ Py.max lo (Py.min hi x) <= hi.
Proof.
  intros H. unfold Py.max, Py.min.
  destruct (Qlt_le_dec x hi);
    [destruct (Qlt_le_dec lo x) | destruct (Qlt_le_dec lo hi)]; lra.
Qed.

Lemma int_of_negative (x : Q) : x < 0 -> (Py.int x <= 0)%Z.
Proof.
  destruct x as [n d]. unfold Qlt, Py.int. simpl. intros H.
  assert (Hn : (0 <= - n)%Z) by lia.
  pose proof (Z.quot_pos (- n) (Zpos d) Hn ltac:(lia)) as Hq.
  rewrite Z.quot_opp_l in Hq by lia. lia.
Qed.

Lemma int_of_large (x : Q) (n : Z) :
  (0 <= n)%Z -> inject_Z n <= x -> (n <= Py.int x)%Z.
Proof.
  destruct x as [m d]. unfold Qle, Py.int. simpl. intros Hn H.
  apply Z.quot_le_lower_bound; lia.
Qed.

Lemma is_on_line_with_iff (c line_color : color) (tolerance : Z) :
  is_on_line_with c line_color tolerance = true <->
  (Z.abs (fst (fst c) - fst (fst line_color)) < tolerance
   /\ Z.abs (snd (fst c) - snd (fst line_color)) < tolerance
   /\ Z.abs (snd c - snd line_color) < tolerance)%Z.
Proof.
  destruct c as [[r g] b], line_color as [[lr lg] lb]. simpl.
  rewrite !andb_true_iff, !Z.ltb_lt. tauto.
Qed.

Lemma WIN_left_column (py : Z) : WIN 0%Z py = WHITE.
Proof. reflexivity. Qed.

Lemma WIN_top_row (px : Z) : WIN px 0%Z = WHITE.
Proof.
  unfold WIN, draw_track, draw_rect, in_rect, fill. simpl.
  destruct (125 <=? px)%Z, (px <? 675)%Z, (100 <=? px)%Z, (px <? 700)%Z;
    reflexivity.
Qed.

Lemma get_pixel_color_returns (win : Surface) (x y : Q) :
  exists c, get_pixel_color win x y = Ok c.
Proof.
  unfold get_pixel_color, get_at.
  destruct ((0 <=? Py.int x) && (Py.int x <? WIDTH)
            && (0 <=? Py.int y) && (Py.int y <? HEIGHT))%Z; eauto.
Qed.

Lemma get_pixel_color_outside (x y : Q) :
  ~ (0 <= x < inject_Z WIDTH /\ 0 <= y < inject_Z HEIGHT) ->
  get_pixel_color WIN x y = Ok WHITE.
Proof.
  intros Hout. unfold get_pixel_color, get_at.
  destruct ((0 <=? Py.int x) && (Py.int x <? WIDTH)
            && (0 <=? Py.int y) && (Py.int y <? HEIGHT))%Z eqn:Hin;
    [| reflexivity].
  rewrite !andb_true_iff, !Z.leb_le, !Z.ltb_lt in Hin.
  destruct Hin as [[[Hx0 Hx1] Hy0] Hy1].
  destruct (Qlt_le_dec x 0) as [Hx | Hx].
  { pose proof (int_of_negative x Hx).
    replace (Py.int x) with 0%Z by lia. now rewrite WIN_left_column. }
  destruct (Qlt_le_dec y 0) as [Hy | Hy].
  { pose proof (int_of_negative y Hy).
    replace (Py.int y) with 0%Z by lia. now rewrite WIN_top_row. }
  destruct (Qlt_le_dec x (inject_Z WIDTH)) as [Hxw | Hxw].
  2:{ pose proof (int_of_large x WIDTH ltac:(unfold WIDTH; lia) Hxw). lia. }
  destruct (Qlt_le_dec y (inject_Z HEIGHT)) as [Hyh | Hyh].
  2:{ pose proof (int_of_large y HEIGHT ltac:(unfold HEIGHT; lia) Hyh). lia. }
  exfalso. apply Hout. repeat split; assumption.
Qed.

Lemma sense_loop_returns (win : Surface) (pos : SensorPositions)
    (names : list SensorName) :
  exists states,
    sense_loop win pos names = Ok states
    /\ map fst states = names
    /\ forall name b, In (name, b) states ->
         exists c, get_pixel_color win (fst (pos name)) (snd (pos name)) = Ok c
                   /\ b = is_on_line c.
Proof.
  induction names as [| name rest IH]; simpl.
  - exists []. repeat split. intros ? ? [].
  - destruct (get_pixel_color_returns win (fst (pos name)) (snd (pos name)))
      as [c Hc].
    destruct IH as (states & Hs & Hkeys & Hall).
    rewrite Hc, Hs. simpl.
    exists ((name, is_on_line c) :: states). repeat split.
    + simpl. now rewrite Hkeys.
    + intros n b [Heq | Hin].
      * inversion Heq; subst. eauto.
      * now apply Hall.
Qed.

Lemma SensorName_eqb_eq (a b : SensorName) :
  SensorName_eqb a b = true <-> a = b.
Proof. destruct a, b; simpl; split; intros H; congruence. Qed.

Lemma lookup_in (states : list (SensorName * bool)) (name : SensorName) :
  In name (map fst states) -> In (name, lookup states name) states.
Proof.
  induction states as [| [n b] rest IH]; simpl; [tauto |].
  intros H. destruct (SensorName_eqb n name) eqn:E.
  - apply SensorName_eqb_eq in E. subst. now left.
  - right. apply IH. destruct H as [H | H]; [| assumption].
    subst. destruct name; discriminate.
Qed.

Lemma sensor_names_complete (name : SensorName) : In name sensor_names.
Proof. destruct name; simpl; tauto. Qed.

Lemma sense_line_returns (win : Surface) (pos : SensorPositions) :
  exists states,
    sense_line win pos = Ok states
    /\ forall name,
         exists c, get_pixel_color win (fst (pos name)) (snd (pos name)) = Ok c
                   /\ states name = is_on_line c.
Proof.
  unfold sense_line.
  destruct (sense_loop_returns win pos sensor_names) as (l & Hl & Hkeys & Hall).
  rewrite Hl. simpl. exists (lookup l). split; [reflexivity |].
  intros name. apply Hall, lookup_in. rewrite Hkeys.
  apply sensor_names_complete.
Qed.

(** ** Facts about the controller *)

Lemma half_timeout : inject_Z MAX_LOST_TIME_FRAMES / 2 == inject_Z 60.
Proof. reflexivity. Qed.

Lemma quarter_timeout : inject_Z MAX_LOST_TIME_FRAMES / 4 == inject_Z 30.
Proof. reflexivity. Qed.

(** The test of the sweep, on floats in the code, is a test on the
    integer remainder of the counter. *)
Lemma sweep_test (c : Z) :
  Py.ltb (Py.mod_ (inject_Z c) (inject_Z MAX_LOST_TIME_FRAMES / 2))
         (inject_Z MAX_LOST_TIME_FRAMES / 4)
  = (c mod 60 <? 30)%Z.
Proof.
  rewrite (ltb_comp _ (inject_Z (c mod 60)) _ (inject_Z 30)).
  - unfold Py.ltb.
    destruct (Qlt_le_dec (inject_Z (c mod 60)) (inject_Z 30)) as [H | H];
      symmetry.
    + apply Z.ltb_lt. now rewrite Zlt_Qlt.
    + apply Z.ltb_ge. now rewrite Zle_Qle.
  - rewrite (mod_comp _ (inject_Z c) _ (inject_Z 60)).
    + apply mod_inject_Z. lia.
    + reflexivity.
    + apply half_timeout.
  - apply quarter_timeout.
Qed.

Lemma search_turn_spec (c : Z) : search_turn c == spec_sweep c.
Proof.
  unfold search_turn, spec_sweep. destruct (c mod 60 <? 30)%Z; reflexivity.
Qed.

Lemma any_values (s : SensorStates) :
  Py.any (values s) = true <-> exists name, s name = true.
Proof.
  unfold Py.any, values. rewrite existsb_exists. split.
  - intros (b & Hin & Hb). apply in_map_iff in Hin.
    destruct Hin as (name & Hname & _). exists name. congruence.
  - intros (name & Hname). exists true. split; [| reflexivity].
    rewrite <- Hname. apply in_map, sensor_names_complete.
Qed.

(** The search branch, by cases. *)
Lemma decide_search (g : Globals) (s : SensorStates) :
  ROBOT_MODE g = LOST_LINE_SEARCH ->
  decide_robot_action g s =
    let c := (LOST_LINE_COUNTER g + 1)%Z in
    if Py.any (values s) then
      finish (mkGlobals FOLLOW_LINE 0) s (search_turn c) 0
        [Text "MODE: Found line during search, resuming FOLLOW_LINE."]
    else if (c >? MAX_LOST_TIME_FRAMES)%Z then
      SystemExit (mkGlobals LOST_LINE_SEARCH c)
        [Text "Lost line for too long, stopping simulation."]
    else finish (mkGlobals LOST_LINE_SEARCH c) s (search_turn c) 0 [].
Proof.
  intros Hmode. unfold decide_robot_action. rewrite Hmode.
  rewrite sweep_test. fold (search_turn (LOST_LINE_COUNTER g + 1)).
  cbv zeta. destruct (Py.any (values s)); reflexivity.
Qed.

(** The follow branch, by cases. *)
Lemma decide_follow (g : Globals) (s : SensorStates) :
  ROBOT_MODE g = FOLLOW_LINE ->
  decide_robot_action g s =
    if negb (Py.any (values s)) then
      finish (mkGlobals LOST_LINE_SEARCH 0) s 0 0
        [Text "MODE: Lost line from FOLLOW_LINE, entering search."]
    else if s center then
      finish (mkGlobals FOLLOW_LINE 0) s
        (clamp_turn (steering_error s * TURN_RATE)) BASE_ROBOT_SPEED []
    else
      finish (mkGlobals FOLLOW_LINE 0) s
        (if s left && negb (s right) then - TURN_RATE * 1.5
         else if s right && negb (s left) then TURN_RATE * 1.5
         else if s left_forward && negb (s right_forward) then - TURN_RATE * 2
         else if s right_forward && negb (s left_forward) then TURN_RATE * 2
         else clamp_turn (steering_error s * TURN_RATE))
        BASE_ROBOT_SPEED [].
Proof.
  intros Hmode. unfold decide_robot_action. rewrite Hmode. reflexivity.
Qed.

Lemma steering_error_spec (s : SensorStates) :
  steering_error s == spec_steering_error s.
Proof.
  unfold steering_error, spec_steering_error, Py.sum, sensor_names. simpl.
  destruct (s center), (s left), (s right), (s left_forward),
    (s right_forward); reflexivity.
Qed.

Lemma clamp_turn_spec (x : Q) :
  clamp_turn x == spec_clamp x (- (3 * TURN_RATE)) (3 * TURN_RATE).
Proof.
  unfold clamp_turn.
  rewrite clamp_is_spec_clamp by (unfold TURN_RATE; lra).
  unfold spec_clamp, TURN_RATE.
  destruct (Qlt_le_dec x (-(2) * 3)), (Qlt_le_dec x (- (3 * 2)));
    try lra;
    destruct (Qlt_le_dec (2 * 3) x), (Qlt_le_dec (3 * 2) x); lra.
Qed.

Lemma spec_clamp_comp (x y lo hi : Q) :
  x == y -> spec_clamp x lo hi == spec_clamp y lo hi.
Proof.
  intros H. unfold spec_clamp.
  destruct (Qlt_le_dec x lo), (Qlt_le_dec y lo); try lra;
    destruct (Qlt_le_dec hi x), (Qlt_le_dec hi y); lra.
Qed.

Lemma proportional_turn_spec (s : SensorStates) :
  clamp_turn (steering_error s * TURN_RATE) == spec_proportional_turn s.
Proof.
  rewrite clamp_turn_spec. unfold spec_proportional_turn.
  apply spec_clamp_comp. now rewrite steering_error_spec.
Qed.

(** The bound on a turn that is a constant multiple of [TURN_RATE]. *)
Ltac constant_turn :=
  apply Qabs_Qle_condition; unfold TURN_RATE; lra.

Lemma clamp_turn_bound (x : Q) : Qabs (clamp_turn x) <= 3 * TURN_RATE.
Proof.
  apply Qabs_Qle_condition. unfold clamp_turn.
  pose proof (clamp_range x (- TURN_RATE * 3) (TURN_RATE * 3)
                ltac:(unfold TURN_RATE; lra)) as [Hlo Hhi].
  unfold TURN_RATE in *. lra.
Qed.

Lemma search_turn_bound (c : Z) : Qabs (search_turn c) <= 2 * TURN_RATE.
Proof.
  unfold search_turn. destruct (c mod 60 <? 30)%Z; constant_turn.
Qed.

Lemma any_all_off : Py.any (values all_off) = false.
Proof. reflexivity. Qed.

Lemma tested_counters_S (c : Z) (k : nat) :
  tested_counters c (S k) = (c + 1)%Z :: tested_counters (c + 1) k.
Proof.
  unfold tested_counters. simpl. f_equal; [lia |].
  rewrite <- seq_shift, map_map. apply map_ext. intros j. lia.
Qed.

Lemma search_commands_S (c : Z) (k : nat) :
  search_commands c (S k)
  = (search_turn (c + 1), 0) :: search_commands (c + 1) k.
Proof. unfold search_commands. now rewrite tested_counters_S. Qed.

Lemma search_commands_length (c : Z) (k : nat) :
  List.length (search_commands c k) = k.
Proof.
  unfold search_commands, tested_counters.
  now rewrite !length_map, length_seq.
Qed.

Lemma search_commands_nth (c : Z) (k i : nat) :
  (i < k)%nat ->
  nth_error (search_commands c k) i
  = Some (search_turn (c + 1 + Z.of_nat i), 0).
Proof.
  intros Hi. unfold search_commands, tested_counters.
  rewrite map_map, nth_error_map.
  rewrite (nth_error_nth' _ 0%nat) by (now rewrite length_seq).
  rewrite seq_nth by assumption. reflexivity.
Qed.

(** One search frame with every sensor off, below the limit. *)
Lemma search_frame_continues (c : Z) :
  (c + 1 <= MAX_LOST_TIME_FRAMES)%Z ->
  exists out,
    decide_robot_action (mkGlobals LOST_LINE_SEARCH c) all_off
    = Return (search_turn (c + 1)) 0 (mkGlobals LOST_LINE_SEARCH (c + 1)) out.
Proof.
  intros Hc. rewrite decide_search by reflexivity. cbv zeta.
  rewrite any_all_off. simpl LOST_LINE_COUNTER.
  destruct (Z.gtb_spec (c + 1) MAX_LOST_TIME_FRAMES) as [H | H]; [lia |].
  unfold finish. eauto.
Qed.

(** One search frame with every sensor off, at the limit. *)
Lemma search_frame_exits (c : Z) :
  (MAX_LOST_TIME_FRAMES < c + 1)%Z ->
  decide_robot_action (mkGlobals LOST_LINE_SEARCH c) all_off
  = SystemExit (mkGlobals LOST_LINE_SEARCH (c + 1))
      [Text "Lost line for too long, stopping simulation."].
Proof.
  intros Hc. rewrite decide_search by reflexivity. cbv zeta.
  rewrite any_all_off. simpl LOST_LINE_COUNTER.
  destruct (Z.gtb_spec (c + 1) MAX_LOST_TIME_FRAMES) as [H | H]; [| lia].
  reflexivity.
Qed.

(** [k] search frames with every sensor off, while the counter stays
    within the limit: the loop goes on and the counter has grown by [k]. *)
Lemma drive_from_search (k : nat) :
  forall (n : nat) (acc : list (Q * Q)) (c : Z),
    (c + Z.of_nat k <= MAX_LOST_TIME_FRAMES)%Z ->
    drive_from n acc (mkGlobals LOST_LINE_SEARCH c) (repeat all_off k)
    = Alive (mkGlobals LOST_LINE_SEARCH (c + Z.of_nat k))
            (acc ++ search_commands c k).
Proof.
  induction k as [| k IH]; intros n acc c Hc.
  - simpl. rewrite app_nil_r. do 2 f_equal. lia.
  - destruct (search_frame_continues c ltac:(lia)) as [out Hout].
    cbn [repeat drive_from]. rewrite Hout.
    rewrite IH by lia. rewrite search_commands_S, <- app_assoc. simpl.
    do 2 f_equal. lia.
Qed.

(** Once the counter is [MAX_LOST_TIME_FRAMES - k], the frame [k] frames
    later exits, however many frames were still to come. *)
Lemma drive_from_search_halts (k : nat) :
  forall (n : nat) (acc : list (Q * Q)) (c : Z) (more : nat),
    (c + Z.of_nat k = MAX_LOST_TIME_FRAMES)%Z ->
    drive_from n acc (mkGlobals LOST_LINE_SEARCH c)
               (repeat all_off (k + S more))
    = Halted (n + k) (acc ++ search_commands c k).
Proof.
  induction k as [| k IH]; intros n acc c more Hc.
  - cbn [Nat.add repeat drive_from].
    rewrite search_frame_exits by lia.
    rewrite app_nil_r, Nat.add_0_r. reflexivity.
  - destruct (search_frame_continues c ltac:(lia)) as [out Hout].
    cbn [Nat.add repeat drive_from]. rewrite Hout.
    rewrite IH by lia. rewrite search_commands_S, <- app_assoc. simpl.
    f_equal. lia.
Qed.

(** The frame that loses the line, from follow mode. *)
Lemma follow_frame_loses_line (g : Globals) :
  ROBOT_MODE g = FOLLOW_LINE ->
  exists out,
    decide_robot_action g all_off
    = Return 0 0 (mkGlobals LOST_LINE_SEARCH 0) out.
Proof.
  intros Hmode. rewrite decide_follow by assumption.
  rewrite any_all_off. unfold finish. simpl. eauto.
Qed.

(** ** The search sweep *)

(** C1, as stated, fails.  Numbering the frames of a search run from 0,
    frame 29 (the thirtieth frame, entered with the counter at 29) turns
    by -1.5 * TURN_RATE although 29 mod 60 < 30: the counter is
    incremented before the test, which reads 30.  Numbering them instead
    by the counter a frame leaves behind, the frame that leaves 0 is the
    one that enters the search, and it turns by 0. *)
Lemma sweep_as_stated_fails :
  drive (mkGlobals LOST_LINE_SEARCH 0) (repeat all_off 30)
    = Alive (mkGlobals LOST_LINE_SEARCH 30) (search_commands 0 30)
  /\ nth_error (search_commands 0 30) 29 = Some (- TURN_RATE * 1.5, 0)
  /\ (exists out,
        decide_robot_action (mkGlobals LOST_LINE_SEARCH 29) all_off
        = Return (- TURN_RATE * 1.5) 0 (mkGlobals LOST_LINE_SEARCH 30) out)
  /\ (29 mod 60 < 30)%Z
  /\ ~ (- TURN_RATE * 1.5 == 1.5 * TURN_RATE)
  /\ (exists out,
        decide_robot_action (mkGlobals FOLLOW_LINE 0) all_off
        = Return 0 0 (mkGlobals LOST_LINE_SEARCH 0) out)
  /\ ~ (0 == 1.5 * TURN_RATE).
Proof.
  split; [| split; [| split; [| split; [| split; [| split]]]]].
  - unfold drive. now rewrite drive_from_search.
  - now rewrite search_commands_nth by lia.
  - eexists. reflexivity.
  - reflexivity.
  - intros H. discriminate H.
  - eexists. reflexivity.
  - intros H. discriminate H.
Qed.

(** C1, amended: a frame entered in search mode that returns (any sensor
    on the line, or the incremented counter within the limit) returns
    speed 0 and the turn of the sweep at the incremented counter:
    +1.5 * TURN_RATE when (LOST_LINE_COUNTER + 1) mod 60 < 30 and
    -1.5 * TURN_RATE otherwise.  So the [k] first frames of a search run
    with every sensor off, [k <= 120], all return speed 0, and frame
    number [i] counted from 0 turns by the sweep at [i + 1]: plus on the
    frames 1 to 29 counted from 1, minus on 30 to 59, plus on 60 to
    89, and so on with period 60. *)
Theorem search_sweep_reads_incremented_counter :
  (forall (g : Globals) (s : SensorStates),
      ROBOT_MODE g = LOST_LINE_SEARCH ->
      times_out g s = false ->
      exists turn g' out,
        decide_robot_action g s = Return turn 0 g' out
        /\ turn == spec_sweep (LOST_LINE_COUNTER g + 1))
  /\ (forall k : nat,
        (k <= 120)%nat ->
        exists commands,
          drive (mkGlobals LOST_LINE_SEARCH 0) (repeat all_off k)
          = Alive (mkGlobals LOST_LINE_SEARCH (Z.of_nat k)) commands
          /\ List.length commands = k
          /\ forall i : nat,
               (i < k)%nat ->
               exists turn,
                 nth_error commands i = Some (turn, 0)
                 /\ turn == spec_sweep (Z.of_nat i + 1)).
Proof.
  split.
  - intros g s Hmode Hlive.
    unfold times_out in Hlive. rewrite Hmode in Hlive.
    rewrite decide_search by assumption. cbv zeta.
    exists (search_turn (LOST_LINE_COUNTER g + 1)).
    destruct (Py.any (values s)); simpl in Hlive.
    + unfold finish. do 2 eexists. split; [reflexivity |].
      apply search_turn_spec.
    + rewrite Hlive. unfold finish. do 2 eexists. split; [reflexivity |].
      apply search_turn_spec.
  - intros k Hk. exists (search_commands 0 k).
    split; [| split].
    + unfold drive. rewrite drive_from_search by (unfold MAX_LOST_TIME_FRAMES; lia).
      reflexivity.
    + apply search_commands_length.
    + intros i Hi. exists (search_turn (0 + 1 + Z.of_nat i)).
      split; [now apply search_commands_nth |].
      rewrite search_turn_spec.
      replace (0 + 1 + Z.of_nat i)%Z with (Z.of_nat i + 1)%Z by lia.
      reflexivity.
Qed.

Lemma search_sweep_witness :
  (exists turn g' out,
      decide_robot_action (mkGlobals LOST_LINE_SEARCH 29) (only [left])
      = Return turn 0 g' out
      /\ turn == spec_sweep (29 + 1))
  /\ (exists commands turn,
        drive (mkGlobals LOST_LINE_SEARCH 0) (repeat all_off 90)
        = Alive (mkGlobals LOST_LINE_SEARCH (Z.of_nat 90)) commands
        /\ nth_error commands 29 = Some (turn, 0)
        /\ turn == spec_sweep (Z.of_nat 29 + 1)).
Proof.
  split.
  - apply (proj1 search_sweep_reads_incremented_counter
             (mkGlobals LOST_LINE_SEARCH 29) (only [left])); reflexivity.
  - destruct (proj2 search_sweep_reads_incremented_counter 90%nat
                ltac:(lia)) as (commands & Hrun & _ & Hnth).
    destruct (Hnth 29%nat ltac:(lia)) as (turn & Hturn & Hsweep).
    exists commands, turn. repeat split; assumption.
Defined.

(** ** The search timeout *)

(** The loop stops as soon as a frame exits. *)
Lemma main_loop_aborts (cos_deg sin_deg : Q -> Q) (quit : bool)
    (rest : list bool) (p : Pose) (g : Globals) (s : SensorStates) :
  sense_line WIN
    (calculate_sensor_positions cos_deg sin_deg
       (robot_x p) (robot_y p) (robot_angle p)) = Ok s ->
  times_out g s = true ->
  main_loop cos_deg sin_deg (quit :: rest) p g = Aborted.
Proof.
  intros Hsense Hout. simpl. unfold frame. rewrite Hsense.
  unfold times_out in Hout.
  destruct (ROBOT_MODE g) eqn:Hmode; [discriminate |].
  apply andb_true_iff in Hout. destruct Hout as [Hany Hover].
  apply negb_true_iff in Hany.
  rewrite decide_search by assumption. cbv zeta.
  rewrite Hany, Hover. reflexivity.
Qed.

(** C2: from follow mode, a frame with every sensor off enters the
    search with the counter at 0.  If every sensor stays off, the [k]
    following frames, [k <= 120], all return and leave the counter at
    [k]; the 121st search frame (frame 121 of the run, the entering
    frame being frame 0) exits, after exactly 120 search commands, and
    the main loop ends there.  A search frame on which some sensor is on
    the line returns instead, in follow mode with the counter at 0,
    whatever the counter was. *)
Theorem search_times_out_on_frame_121 :
  (forall g : Globals,
      ROBOT_MODE g = FOLLOW_LINE ->
      (forall k : nat,
          (k <= 120)%nat ->
          drive g (repeat all_off (S k))
          = Alive (mkGlobals LOST_LINE_SEARCH (Z.of_nat k))
                  ((0, 0) :: search_commands 0 k))
      /\ (forall more : nat,
            drive g (repeat all_off (S (120 + S more)))
            = Halted 121 ((0, 0) :: search_commands 0 120)))
  /\ (forall c : Z,
        decide_robot_action (mkGlobals LOST_LINE_SEARCH c) all_off
        = (if (c + 1 >? 120)%Z
           then SystemExit (mkGlobals LOST_LINE_SEARCH (c + 1))
                  [Text "Lost line for too long, stopping simulation."]
           else finish (mkGlobals LOST_LINE_SEARCH (c + 1)) all_off
                  (search_turn (c + 1)) 0 []))
  /\ (forall (cos_deg sin_deg : Q -> Q) (quit : bool) (rest : list bool)
             (p : Pose) (s : SensorStates),
        sense_line WIN
          (calculate_sensor_positions cos_deg sin_deg
             (robot_x p) (robot_y p) (robot_angle p)) = Ok s ->
        Py.any (values s) = false ->
        main_loop cos_deg sin_deg (quit :: rest) p
          (mkGlobals LOST_LINE_SEARCH 120) = Aborted)
  /\ (forall (g : Globals) (s : SensorStates),
        ROBOT_MODE g = LOST_LINE_SEARCH ->
        Py.any (values s) = true ->
        exists turn speed out,
          decide_robot_action g s
          = Return turn speed (mkGlobals FOLLOW_LINE 0) out).
Proof.
  split; [| split; [| split]].
  - intros g Hmode.
    destruct (follow_frame_loses_line g Hmode) as [out Hout].
    split.
    + intros k Hk. unfold drive. cbn [repeat drive_from]. rewrite Hout.
      rewrite drive_from_search by (unfold MAX_LOST_TIME_FRAMES; lia).
      reflexivity.
    + intros more. unfold drive. cbn [repeat drive_from]. rewrite Hout.
      rewrite drive_from_search_halts by reflexivity. reflexivity.
  - intros c. rewrite decide_search by reflexivity. cbv zeta.
    rewrite any_all_off. reflexivity.
  - intros cos_deg sin_deg quit rest p s Hsense Hoff.
    apply (main_loop_aborts _ _ _ _ _ _ s Hsense).
    unfold times_out. cbn [ROBOT_MODE LOST_LINE_COUNTER].
    rewrite Hoff. reflexivity.
  - intros g s Hmode Hany.
    rewrite decide_search by assumption. cbv zeta. rewrite Hany.
    unfold finish. eauto.
Qed.

Lemma search_times_out_witness :
  drive initial_globals (repeat all_off (S 120))
    = Alive (mkGlobals LOST_LINE_SEARCH (Z.of_nat 120))
            ((0, 0) :: search_commands 0 120)
  /\ drive initial_globals (repeat all_off (S (120 + S 0)))
     = Halted 121 ((0, 0) :: search_commands 0 120)
  /\ main_loop (fun _ => 1) (fun _ => 0) [false; false]
       (mkPose 300 300 0) (mkGlobals LOST_LINE_SEARCH 120) = Aborted
  /\ exists turn speed out,
       decide_robot_action (mkGlobals LOST_LINE_SEARCH 120) (only [right])
       = Return turn speed (mkGlobals FOLLOW_LINE 0) out.
Proof.
  split; [| split; [| split]].
  - apply (proj1 (proj1 search_times_out_on_frame_121 initial_globals
                    eq_refl) 120%nat). lia.
  - apply (proj2 (proj1 search_times_out_on_frame_121 initial_globals
                    eq_refl) 0%nat).
  - eapply (proj1 (proj2 (proj2 search_times_out_on_frame_121)));
      reflexivity.
  - apply (proj2 (proj2 (proj2 search_times_out_on_frame_121))
             (mkGlobals LOST_LINE_SEARCH 120) (only [right])); reflexivity.
Defined.

(** ** Following the line *)

(** C3: in follow mode with the centre sensor on the line, the frame
    returns the base speed and the turn
    clamp(steering_error * TURN_RATE, -3 * TURN_RATE, +3 * TURN_RATE),
    where the steering error summed by the code is the sum of the
    weights of exactly the active sensors; when only the centre sensor
    is on the line the steering error and the turn are 0. *)
Theorem follow_with_center_is_proportional :
  forall (g : Globals) (s : SensorStates),
    ROBOT_MODE g = FOLLOW_LINE ->
    s center = true ->
    exists turn out,
      decide_robot_action g s
      = Return turn BASE_ROBOT_SPEED (mkGlobals FOLLOW_LINE 0) out
      /\ steering_error s == spec_steering_error s
      /\ turn == spec_clamp (spec_steering_error s * TURN_RATE)
                   (- (3 * TURN_RATE)) (3 * TURN_RATE)
      /\ ((forall name, name <> center -> s name = false) ->
          spec_steering_error s == 0 /\ turn == 0).
Proof.
  intros g s Hmode Hcenter.
  assert (Hany : Py.any (values s) = true)
    by (apply any_values; now exists center).
  rewrite decide_follow by assumption. rewrite Hany, Hcenter. simpl negb.
  unfold finish. do 2 eexists. split; [reflexivity |].
  split; [apply steering_error_spec |].
  split; [apply proportional_turn_spec |].
  intros Hothers.
  assert (Hzero : spec_steering_error s == 0).
  { unfold spec_steering_error.
    rewrite Hcenter, (Hothers left), (Hothers right),
      (Hothers left_forward), (Hothers right_forward) by discriminate.
    reflexivity. }
  split; [exact Hzero |].
  rewrite proportional_turn_spec. unfold spec_proportional_turn.
  rewrite (spec_clamp_comp _ 0) by (rewrite Hzero; reflexivity).
  reflexivity.
Qed.

Lemma follow_with_center_witness :
  exists turn out,
    decide_robot_action initial_globals (only [center])
    = Return turn BASE_ROBOT_SPEED (mkGlobals FOLLOW_LINE 0) out
    /\ steering_error (only [center]) == spec_steering_error (only [center])
    /\ turn == spec_clamp (spec_steering_error (only [center]) * TURN_RATE)
                 (- (3 * TURN_RATE)) (3 * TURN_RATE)
    /\ ((forall name, name <> center -> only [center] name = false) ->
        spec_steering_error (only [center]) == 0 /\ turn == 0).
Proof.
  apply (follow_with_center_is_proportional initial_globals (only [center]));
    reflexivity.
Defined.

(** C4: in follow mode with the centre sensor off the line and some
    other sensor on it, the frame returns the base speed and the turn of
    the first of the four priority rules, in the listed order, whose
    condition holds, and the weighted-sum-and-clamp turn when none does.
    With only left and right_forward on the line, rule 1 decides:
    the turn is -1.5 * TURN_RATE, not the +2 * TURN_RATE of rule 4. *)
Theorem follow_without_center_takes_first_rule :
  forall (g : Globals) (s : SensorStates),
    ROBOT_MODE g = FOLLOW_LINE ->
    s center = false ->
    Py.any (values s) = true ->
    (exists turn out,
        decide_robot_action g s
        = Return turn BASE_ROBOT_SPEED (mkGlobals FOLLOW_LINE 0) out
        /\ turn == spec_priority_turn s
        /\ (first_match priority_rules s = None ->
            turn == spec_proportional_turn s))
    /\ (exists turn out,
          decide_robot_action g (only [left; right_forward])
          = Return turn BASE_ROBOT_SPEED (mkGlobals FOLLOW_LINE 0) out
          /\ first_match priority_rules (only [left; right_forward])
             = Some (- (1.5 * TURN_RATE))
          /\ turn == - (1.5 * TURN_RATE)
          /\ ~ turn == 2 * TURN_RATE).
Proof.
  intros g s Hmode Hcenter Hany. split.
  - rewrite decide_follow by assumption. rewrite Hany, Hcenter. simpl negb.
    unfold finish. do 2 eexists. split; [reflexivity |].
    unfold spec_priority_turn, priority_rules, first_match.
    destruct (s left), (s right), (s left_forward), (s right_forward);
      cbn [andb negb];
      (split; [first [apply proportional_turn_spec | reflexivity]
              | intros Hnone;
                first [discriminate Hnone | apply proportional_turn_spec]]).
  - rewrite decide_follow by assumption.
    unfold finish. do 2 eexists. split; [reflexivity |].
    split; [reflexivity |].
    split; [reflexivity | intros H; discriminate H].
Qed.

Lemma follow_without_center_witness :
  (exists turn out,
      decide_robot_action initial_globals (only [left_forward; right_forward])
      = Return turn BASE_ROBOT_SPEED (mkGlobals FOLLOW_LINE 0) out
      /\ turn == spec_priority_turn (only [left_forward; right_forward])
      /\ (first_match priority_rules (only [left_forward; right_forward])
          = None ->
          turn == spec_proportional_turn (only [left_forward; right_forward])))
  /\ (exists turn out,
        decide_robot_action initial_globals (only [left; right_forward])
        = Return turn BASE_ROBOT_SPEED (mkGlobals FOLLOW_LINE 0) out
        /\ first_match priority_rules (only [left; right_forward])
           = Some (- (1.5 * TURN_RATE))
        /\ turn == - (1.5 * TURN_RATE)
        /\ ~ turn == 2 * TURN_RATE).
Proof.
  apply (follow_without_center_takes_first_rule initial_globals
           (only [left_forward; right_forward])); reflexivity.
Defined.

(** ** Kinematics *)

(** On whole numbers of degrees, as the controller's turns and hence
    the angles of a run are, the new angle is the integer remainder. *)
Lemma integrate_whole_degrees (cos_deg sin_deg : Q -> Q) (p : Pose)
    (turn speed : Q) (a t : Z) :
  robot_angle p == inject_Z a ->
  turn == inject_Z t ->
  robot_angle (integrate cos_deg sin_deg p turn speed)
  == inject_Z ((a + t) mod 360).
Proof.
  intros Ha Ht. unfold integrate. cbn [robot_angle].
  rewrite <- mod_inject_Z by lia.
  apply mod_comp; [| reflexivity].
  rewrite Ha, Ht, inject_Z_plus. reflexivity.
Qed.

(** Every turn the controller returns is a whole number of degrees. *)
Lemma returned_turn_is_whole (g : Globals) (s : SensorStates)
    (turn speed : Q) (g' : Globals) :
  returns g s turn speed g' -> exists t : Z, turn == inject_Z t.
Proof.
  intros [Hm Ha | Hm Ha | Hm Ha | Hm Ha Hc].
  - now exists 0%Z.
  - unfold follow_turn, clamp_turn, steering_error, Py.sum, sensor_names.
    simpl.
    destruct (s center), (s left), (s right), (s left_forward),
      (s right_forward); simpl;
      match goal with
      | |- exists t, ?q == _ =>
          let v := eval vm_compute in (Qfloor q) in exists v; reflexivity
      end.
  - unfold search_turn.
    destruct ((LOST_LINE_COUNTER g + 1) mod 60 <? 30)%Z;
      [now exists 3%Z | now exists (-3)%Z].
  - unfold search_turn.
    destruct ((LOST_LINE_COUNTER g + 1) mod 60 <? 30)%Z;
      [now exists 3%Z | now exists (-3)%Z].
Qed.

(** C5: the integrator is a function of the pose, the command and the
    bounds.  The new angle is (angle + turn) mod 360: it differs from
    angle + turn by a whole number of turns of 360 and lies in [0, 360),
    for every turn, negative ones included.  The new position is taken
    along the new angle, x + cos(angle') * speed and
    y + sin(angle') * speed, then clamped into [0, WIDTH - 1] and
    [0, HEIGHT - 1]. *)
Theorem integrate_normalises_angle_and_clamps_position :
  forall (cos_deg sin_deg : Q -> Q) (p : Pose) (turn speed : Q),
    let p' := integrate cos_deg sin_deg p turn speed in
    robot_angle p' = Py.mod_ (robot_angle p + turn) 360
    /\ (exists k : Z,
          robot_angle p' == robot_angle p + turn - 360 * inject_Z k)
    /\ (0 <= robot_angle p' /\ robot_angle p' < 360)
    /\ robot_x p'
       == spec_clamp (robot_x p + cos_deg (robot_angle p') * speed)
            0 (inject_Z (WIDTH - 1))
    /\ robot_y p'
       == spec_clamp (robot_y p + sin_deg (robot_angle p') * speed)
            0 (inject_Z (HEIGHT - 1))
    /\ (0 <= robot_x p' /\ robot_x p' <= inject_Z (WIDTH - 1))
    /\ (0 <= robot_y p' /\ robot_y p' <= inject_Z (HEIGHT - 1)).
Proof.
  intros cos_deg sin_deg p turn speed p'. subst p'.
  unfold integrate. cbn [robot_angle robot_x robot_y].
  assert (Hw : 0 <= inject_Z (WIDTH - 1)) by (now compute).
  assert (Hh : 0 <= inject_Z (HEIGHT - 1)) by (now compute).
  split; [reflexivity |].
  split.
  { exists (Qfloor ((robot_angle p + turn) / 360)).
    unfold Py.mod_. reflexivity. }
  split; [apply mod_range; reflexivity |].
  split; [now apply clamp_is_spec_clamp |].
  split; [now apply clamp_is_spec_clamp |].
  split; now apply clamp_range.
Qed.

(** ** Sensing *)

(** C6: sensing never raises.  Whatever the surface and the positions,
    [sense_line] returns the states of the five sensors, and a sensor is
    on the line exactly when each of the three channels of the colour
    sampled at its position differs from the line colour by strictly
    less than the tolerance, 80.  On the track surface every position
    outside [0, WIDTH) x [0, HEIGHT) samples the background colour,
    which is not on the line, so the sensor there reads inactive. *)
Theorem sensing_is_total :
  (forall (win : Surface) (pos : SensorPositions),
      exists states,
        sense_line win pos = Ok states
        /\ forall name,
             exists r g b,
               get_pixel_color win (fst (pos name)) (snd (pos name))
               = Ok (r, g, b)
               /\ (states name = true <->
                   (Z.abs (r - 0) < 80 /\ Z.abs (g - 0) < 80
                    /\ Z.abs (b - 0) < 80)%Z))
  /\ (forall x y : Q,
        ~ (0 <= x < inject_Z WIDTH /\ 0 <= y < inject_Z HEIGHT) ->
        get_pixel_color WIN x y = Ok WHITE)
  /\ is_on_line WHITE = false
  /\ (forall (pos : SensorPositions) (name : SensorName),
        ~ (0 <= fst (pos name) < inject_Z WIDTH
           /\ 0 <= snd (pos name) < inject_Z HEIGHT) ->
        exists states,
          sense_line WIN pos = Ok states /\ states name = false).
Proof.
  split; [| split; [| split]].
  - intros win pos.
    destruct (sense_line_returns win pos) as (states & Hs & Hall).
    exists states. split; [assumption |].
    intros name. destruct (Hall name) as ([[r g] b] & Hc & Hstate).
    exists r, g, b. split; [assumption |].
    rewrite Hstate. unfold is_on_line.
    rewrite is_on_line_with_iff. simpl. reflexivity.
  - apply get_pixel_color_outside.
  - reflexivity.
  - intros pos name Hout.
    destruct (sense_line_returns WIN pos) as (states & Hs & Hall).
    exists states. split; [assumption |].
    destruct (Hall name) as (c & Hc & Hstate).
    rewrite get_pixel_color_outside in Hc by assumption.
    inversion Hc; subst. rewrite Hstate. reflexivity.
Qed.

Lemma sensing_witness :
  get_pixel_color WIN (- (1 # 2)) 300 = Ok WHITE
  /\ get_pixel_color WIN 900 300 = Ok WHITE
  /\ exists states,
       sense_line WIN (fun _ => (112.5, - (1 # 2))) = Ok states
       /\ states center = false.
Proof.
  split; [| split].
  - apply (proj1 (proj2 sensing_is_total) (- (1 # 2)) 300).
    intros [[H _] _]. apply H. reflexivity.
  - apply (proj1 (proj2 sensing_is_total) 900 300).
    intros [[_ H] _]. discriminate H.
  - apply (proj2 (proj2 (proj2 sensing_is_total))
             (fun _ => (112.5, - (1 # 2))) center).
    intros [_ [H _]]. apply H. reflexivity.
Defined.

(** ** Every returning frame, by cases *)

Lemma decide_returns (g : Globals) (s : SensorStates) (turn speed : Q)
    (g' : Globals) (out : list line) :
  decide_robot_action g s = Return turn speed g' out ->
  returns g s turn speed g'.
Proof.
  destruct (ROBOT_MODE g) eqn:Hmode.
  - rewrite decide_follow by assumption.
    destruct (Py.any (values s)) eqn:Hany; simpl negb; cbv iota.
    + unfold finish.
      destruct (s center) eqn:Hc; intros H; inversion H; subst;
        match goal with
        | |- returns _ _ ?t _ _ =>
            replace t with (follow_turn s)
              by (unfold follow_turn; now rewrite Hc)
        end;
        now apply returns_follow.
    + unfold finish. intros H; inversion H; subst. now apply returns_lost.
  - rewrite decide_search by assumption. cbv zeta.
    destruct (Py.any (values s)) eqn:Hany.
    + unfold finish. intros H; inversion H; subst. now apply returns_found.
    + destruct (Z.gtb_spec (LOST_LINE_COUNTER g + 1) MAX_LOST_TIME_FRAMES)
        as [Hover | Hunder]; [discriminate |].
      unfold finish. intros H; inversion H; subst.
      now apply returns_search.
Qed.

Lemma decide_exits (g : Globals) (s : SensorStates) (g' : Globals)
    (out : list line) :
  decide_robot_action g s = SystemExit g' out ->
  times_out g s = true
  /\ out = [Text "Lost line for too long, stopping simulation."].
Proof.
  unfold times_out. destruct (ROBOT_MODE g) eqn:Hmode.
  - rewrite decide_follow by assumption. unfold finish.
    destruct (negb (Py.any (values s))), (s center); discriminate.
  - rewrite decide_search by assumption. cbv zeta. unfold finish.
    destruct (Py.any (values s)); [discriminate |].
    destruct (LOST_LINE_COUNTER g + 1 >? MAX_LOST_TIME_FRAMES)%Z;
      [| discriminate].
    intros H; inversion H; subst. split; reflexivity.
Qed.

(** A frame of the loop keeps the angle a whole number of degrees in
    [0, 360): on the angles of a run the arithmetic of the angle is that
    of the integers. *)
Lemma frame_keeps_whole_degrees (cos_deg sin_deg : Q -> Q) (p p' : Pose)
    (g g' : Globals) (a : Z) :
  robot_angle p == inject_Z a ->
  frame cos_deg sin_deg p g = Next p' g' ->
  exists a' : Z, robot_angle p' == inject_Z a' /\ (0 <= a' < 360)%Z.
Proof.
  intros Ha Hframe. unfold frame in Hframe.
  destruct (sense_line WIN _) as [s | e]; [| discriminate].
  destruct (decide_robot_action g s) as [turn speed g1 out | g1 out] eqn:Hret;
    [| discriminate].
  inversion Hframe; subst. apply decide_returns in Hret.
  destruct (returned_turn_is_whole _ _ _ _ _ Hret) as [t Ht].
  exists ((a + t) mod 360)%Z. split.
  - now apply integrate_whole_degrees.
  - apply Z.mod_pos_bound. lia.
Qed.

Lemma follow_turn_bound (s : SensorStates) :
  Qabs (follow_turn s) <= 3 * TURN_RATE.
Proof.
  unfold follow_turn.
  destruct (s center); [apply clamp_turn_bound |].
  destruct (s left && negb (s right));
    [constant_turn |].
  destruct (s right && negb (s left));
    [constant_turn |].
  destruct (s left_forward && negb (s right_forward));
    [constant_turn |].
  destruct (s right_forward && negb (s left_forward));
    [constant_turn |].
  apply clamp_turn_bound.
Qed.

Lemma reachable_search (k : nat) :
  (Z.of_nat k <= MAX_LOST_TIME_FRAMES)%Z ->
  reachable (mkGlobals LOST_LINE_SEARCH (Z.of_nat k)).
Proof.
  induction k as [| k IH]; intros Hk.
  - destruct (follow_frame_loses_line initial_globals eq_refl) as [out Hout].
    exact (reachable_step _ _ _ _ _ _ reachable_initial Hout).
  - destruct (search_frame_continues (Z.of_nat k) ltac:(lia)) as [out Hout].
    replace (Z.of_nat (S k)) with (Z.of_nat k + 1)%Z by lia.
    exact (reachable_step _ _ _ _ _ _ (IH ltac:(lia)) Hout).
Qed.

(** ** The lost-line counter *)

(** C7: a frame on which some sensor is on the line, in either mode and
    whatever the counter was, leaves follow mode with the counter at 0:
    that is every entry into follow mode and every follow frame that
    sees the line.  So a frame that leaves follow mode leaves the
    counter at 0, and in every reachable state in follow mode the
    counter is 0. *)
Theorem lost_counter_is_zero_in_follow_mode :
  (forall (g : Globals) (s : SensorStates),
      Py.any (values s) = true ->
      exists turn speed out,
        decide_robot_action g s
        = Return turn speed (mkGlobals FOLLOW_LINE 0) out)
  /\ (forall (g : Globals) (s : SensorStates) (turn speed : Q)
             (g' : Globals) (out : list line),
        decide_robot_action g s = Return turn speed g' out ->
        ROBOT_MODE g' = FOLLOW_LINE ->
        LOST_LINE_COUNTER g' = 0%Z)
  /\ (forall g : Globals,
        reachable g ->
        ROBOT_MODE g = FOLLOW_LINE ->
        LOST_LINE_COUNTER g = 0%Z).
Proof.
  split; [| split].
  - intros g s Hany. destruct (ROBOT_MODE g) eqn:Hmode.
    + rewrite decide_follow by assumption. rewrite Hany. simpl negb.
      unfold finish. destruct (s center); eauto.
    + rewrite decide_search by assumption. cbv zeta. rewrite Hany.
      unfold finish. eauto.
  - intros g s turn speed g' out Hret Hmode.
    apply decide_returns in Hret.
    destruct Hret; try reflexivity; discriminate Hmode.
  - intros g Hreach Hmode. destruct Hreach as [| g s turn speed g' out _ Hret].
    + reflexivity.
    + apply decide_returns in Hret.
      destruct Hret; try reflexivity; discriminate Hmode.
Qed.

Lemma lost_counter_witness :
  (exists turn speed out,
      decide_robot_action (mkGlobals LOST_LINE_SEARCH 57) (only [left])
      = Return turn speed (mkGlobals FOLLOW_LINE 0) out)
  /\ LOST_LINE_COUNTER (mkGlobals FOLLOW_LINE 0) = 0%Z
  /\ LOST_LINE_COUNTER (mkGlobals FOLLOW_LINE 0) = 0%Z.
Proof.
  split; [| split].
  - apply (proj1 lost_counter_is_zero_in_follow_mode
             (mkGlobals LOST_LINE_SEARCH 57) (only [left])).
    reflexivity.
  - apply (proj1 (proj2 lost_counter_is_zero_in_follow_mode)
             (mkGlobals FOLLOW_LINE 9) (only [center; left])
             (clamp_turn (steering_error (only [center; left]) * TURN_RATE))
             BASE_ROBOT_SPEED (mkGlobals FOLLOW_LINE 0)
             [Debug FOLLOW_LINE (items (only [center; left]))
                (clamp_turn (steering_error (only [center; left]) * TURN_RATE))
                BASE_ROBOT_SPEED;
              Text "------------------------------"]);
      reflexivity.
  - apply (proj2 (proj2 lost_counter_is_zero_in_follow_mode)
             (mkGlobals FOLLOW_LINE 0)); [| reflexivity].
    apply (reachable_step (mkGlobals LOST_LINE_SEARCH 57) (only [left])
             (search_turn 58) 0 (mkGlobals FOLLOW_LINE 0)
             [Text "MODE: Found line during search, resuming FOLLOW_LINE.";
              Debug FOLLOW_LINE (items (only [left])) (search_turn 58) 0;
              Text "------------------------------"]).
    + apply (reachable_search 57). discriminate.
    + reflexivity.
Defined.

(** ** Returning and exiting *)

(** C8, as stated, fails: in the reachable state where the search has
    lasted 120 frames, a frame with every sensor off does not return a
    command; [exit()] raises [SystemExit] out of the decision function,
    and the main loop is left from inside it. *)
Lemma decide_exits_on_timeout :
  reachable (mkGlobals LOST_LINE_SEARCH 120)
  /\ decide_robot_action (mkGlobals LOST_LINE_SEARCH 120) all_off
     = SystemExit (mkGlobals LOST_LINE_SEARCH 121)
         [Text "Lost line for too long, stopping simulation."]
  /\ drive initial_globals (repeat all_off 122)
     = Halted 121 ((0, 0) :: search_commands 0 120)
  /\ frame (fun _ => 1) (fun _ => 0) (mkPose 300 300 0)
       (mkGlobals LOST_LINE_SEARCH 120) = Exits.
Proof.
  split; [| split; [| split]].
  - apply (reachable_search 120). discriminate.
  - reflexivity.
  - unfold drive. change 122%nat with (S (120 + 1)).
    destruct (follow_frame_loses_line initial_globals eq_refl) as [out Hout].
    cbn [repeat drive_from]. rewrite Hout.
    change (repeat all_off (120 + 1)) with (repeat all_off (120 + S 0)).
    rewrite drive_from_search_halts by reflexivity. reflexivity.
  - reflexivity.
Qed.

(** C8, amended: sensing and integrating are total and raise nothing.
    The decide step returns a command exactly when the frame does not
    time out; when it does (search mode, no sensor on the line, the
    incremented counter past 120) it prints the diagnostic and exits
    from inside the decision function, returning nothing.  So a frame of
    the loop never raises an error of its own: it goes on to the next
    pose and globals, or the process exits on the timeout. *)
Theorem frame_is_total_up_to_timeout :
  (forall (win : Surface) (pos : SensorPositions),
      exists states, sense_line win pos = Ok states)
  /\ (forall (g : Globals) (s : SensorStates),
        if times_out g s then
          decide_robot_action g s
          = SystemExit
              (mkGlobals LOST_LINE_SEARCH (LOST_LINE_COUNTER g + 1))
              [Text "Lost line for too long, stopping simulation."]
        else
          exists turn speed g' out,
            decide_robot_action g s = Return turn speed g' out)
  /\ (forall (cos_deg sin_deg : Q -> Q) (p : Pose) (g : Globals),
        exists s,
          sense_line WIN
            (calculate_sensor_positions cos_deg sin_deg
               (robot_x p) (robot_y p) (robot_angle p)) = Ok s
          /\ if times_out g s then frame cos_deg sin_deg p g = Exits
             else exists turn speed g' out,
                 decide_robot_action g s = Return turn speed g' out
                 /\ frame cos_deg sin_deg p g
                    = Next (integrate cos_deg sin_deg p turn speed) g').
Proof.
  assert (Hdecide : forall (g : Globals) (s : SensorStates),
             if times_out g s then
               decide_robot_action g s
               = SystemExit
                   (mkGlobals LOST_LINE_SEARCH (LOST_LINE_COUNTER g + 1))
                   [Text "Lost line for too long, stopping simulation."]
             else
               exists turn speed g' out,
                 decide_robot_action g s = Return turn speed g' out).
  { intros g s. unfold times_out. destruct (ROBOT_MODE g) eqn:Hmode.
    - rewrite decide_follow by assumption. unfold finish.
      destruct (negb (Py.any (values s))), (s center); eauto.
    - rewrite decide_search by assumption. cbv zeta. unfold finish.
      destruct (Py.any (values s)); simpl; eauto.
      destruct (LOST_LINE_COUNTER g + 1 >? MAX_LOST_TIME_FRAMES)%Z; eauto. }
  split; [| split].
  - intros win pos.
    destruct (sense_line_returns win pos) as (states & Hs & _). eauto.
  - exact Hdecide.
  - intros cos_deg sin_deg p g.
    destruct (sense_line_returns WIN
                (calculate_sensor_positions cos_deg sin_deg
                   (robot_x p) (robot_y p) (robot_angle p)))
      as (s & Hs & _).
    exists s. split; [assumption |].
    unfold frame. rewrite Hs.
    specialize (Hdecide g s). destruct (times_out g s).
    + now rewrite Hdecide.
    + destruct Hdecide as (turn & speed & g' & out & Hret).
      exists turn, speed, g', out. split; [assumption |].
      now rewrite Hret.
Qed.

(** ** Bounds on the command *)

(** C9: whatever the mode and the sensor states, a returned turn has
    magnitude at most 3 * TURN_RATE.  The turn of the weighted sum is
    clamped to that bound; the turns that are not clamped (the frame
    that loses the line, the four priority rules, the search sweep) have
    magnitude at most 2 * TURN_RATE. *)
Theorem returned_turn_is_bounded :
  forall (g : Globals) (s : SensorStates) (turn speed : Q) (g' : Globals)
         (out : list line),
    decide_robot_action g s = Return turn speed g' out ->
    Qabs turn <= 3 * TURN_RATE
    /\ (ROBOT_MODE g = LOST_LINE_SEARCH -> Qabs turn <= 2 * TURN_RATE)
    /\ (ROBOT_MODE g = FOLLOW_LINE ->
        (Py.any (values s) = false
         \/ (s center = false /\ first_match priority_rules s <> None)) ->
        Qabs turn <= 2 * TURN_RATE)
    /\ (ROBOT_MODE g = FOLLOW_LINE ->
        Py.any (values s) = true ->
        (s center = true \/ first_match priority_rules s = None) ->
        turn = clamp_turn (steering_error s * TURN_RATE)).
Proof.
  intros g s turn speed g' out Hret. apply decide_returns in Hret.
  assert (Hsmall : Qabs 0 <= 2 * TURN_RATE) by (now compute).
  assert (Hless : forall x, Qabs x <= 2 * TURN_RATE -> Qabs x <= 3 * TURN_RATE).
  { intros x Hx. unfold TURN_RATE in *. lra. }
  destruct Hret as [Hm Ha | Hm Ha | Hm Ha | Hm Ha Hc].
  - split; [now apply Hless |].
    split; [intros _; exact Hsmall |].
    split; [intros _ _; exact Hsmall |].
    intros _ Hany. rewrite Ha in Hany. discriminate Hany.
  - split; [apply follow_turn_bound |].
    split; [intros Hs; rewrite Hm in Hs; discriminate Hs |].
    split.
    + intros _ [Hoff | [Hcenter Hrule]]; [rewrite Ha in Hoff; discriminate |].
      unfold follow_turn. rewrite Hcenter.
      unfold priority_rules, first_match in Hrule.
      destruct (s left && negb (s right));
        [constant_turn |].
      destruct (s right && negb (s left));
        [constant_turn |].
      destruct (s left_forward && negb (s right_forward));
        [constant_turn |].
      destruct (s right_forward && negb (s left_forward));
        [constant_turn |].
      now contradiction Hrule.
    + intros _ _ [Hcenter | Hnone]; unfold follow_turn.
      * now rewrite Hcenter.
      * unfold priority_rules, first_match in Hnone.
        destruct (s center); [reflexivity |].
        destruct (s left && negb (s right)); [discriminate |].
        destruct (s right && negb (s left)); [discriminate |].
        destruct (s left_forward && negb (s right_forward)); [discriminate |].
        destruct (s right_forward && negb (s left_forward)); [discriminate |].
        reflexivity.
  - split; [apply Hless, search_turn_bound |].
    split; [intros _; apply search_turn_bound |].
    split; intros Hf; rewrite Hm in Hf; discriminate Hf.
  - split; [apply Hless, search_turn_bound |].
    split; [intros _; apply search_turn_bound |].
    split; intros Hf; rewrite Hm in Hf; discriminate Hf.
Qed.

Lemma returned_turn_witness :
  Qabs (clamp_turn (steering_error (only [center; right; right_forward])
                    * TURN_RATE))
  <= 3 * TURN_RATE
  /\ Qabs (search_turn 31) <= 2 * TURN_RATE.
Proof.
  split.
  - exact (proj1
             (returned_turn_is_bounded initial_globals
                (only [center; right; right_forward])
                (clamp_turn
                   (steering_error (only [center; right; right_forward])
                    * TURN_RATE))
                BASE_ROBOT_SPEED (mkGlobals FOLLOW_LINE 0)
                [Debug FOLLOW_LINE
                   (items (only [center; right; right_forward]))
                   (clamp_turn
                      (steering_error (only [center; right; right_forward])
                       * TURN_RATE))
                   BASE_ROBOT_SPEED;
                 Text "------------------------------"]
                eq_refl)).
  - exact (proj1 (proj2
             (returned_turn_is_bounded (mkGlobals LOST_LINE_SEARCH 30)
                all_off (search_turn 31) 0 (mkGlobals LOST_LINE_SEARCH 31)
                [Debug LOST_LINE_SEARCH (items all_off) (search_turn 31) 0;
                 Text "------------------------------"]
                eq_refl)) eq_refl).
Defined.

(** ** The speed *)

(** C10, as stated, fails: a search frame on which a sensor is on the
    line returns speed 0 although it neither enters the search nor
    stays in it; it leaves follow mode. *)
Lemma speed_zero_on_recovery_frame :
  exists turn out,
    decide_robot_action (mkGlobals LOST_LINE_SEARCH 5) (only [center])
    = Return turn 0 (mkGlobals FOLLOW_LINE 0) out
    /\ ROBOT_MODE (mkGlobals FOLLOW_LINE 0) <> LOST_LINE_SEARCH
    /\ ~ (0 == BASE_ROBOT_SPEED).
Proof.
  do 2 eexists. split; [reflexivity |].
  split; intros H; discriminate H.
Qed.

(** C10, amended: in follow mode with some sensor on the line the frame
    returns the base speed, in the centre branch, in each of the four
    priority-rule branches and in the fallback.  A returning frame has
    speed 0 exactly when it enters the search or was entered in search
    mode, the frame that finds the line again included; every other
    returning frame has the base speed. *)
Theorem speed_is_base_or_zero :
  forall (g : Globals) (s : SensorStates) (turn speed : Q) (g' : Globals)
         (out : list line),
    decide_robot_action g s = Return turn speed g' out ->
    (ROBOT_MODE g = FOLLOW_LINE ->
     Py.any (values s) = true ->
     speed = BASE_ROBOT_SPEED)
    /\ (speed == 0 <->
        (ROBOT_MODE g = LOST_LINE_SEARCH
         \/ (ROBOT_MODE g = FOLLOW_LINE
             /\ ROBOT_MODE g' = LOST_LINE_SEARCH)))
    /\ (speed = 0 \/ speed = BASE_ROBOT_SPEED).
Proof.
  intros g s turn speed g' out Hret. apply decide_returns in Hret.
  destruct Hret as [Hm Ha | Hm Ha | Hm Ha | Hm Ha Hc].
  - split; [intros _ Hany; rewrite Ha in Hany; discriminate Hany |].
    split; [| now left].
    split; [intros _; right; split; [assumption | reflexivity] | reflexivity].
  - split; [reflexivity |].
    split; [| now right].
    split.
    + intros H. discriminate H.
    + intros [Hs | [_ Hs]]; [rewrite Hm in Hs |]; discriminate Hs.
  - split; [intros Hf; rewrite Hm in Hf; discriminate Hf |].
    split; [| now left].
    split; [intros _; now left | reflexivity].
  - split; [intros Hf; rewrite Hm in Hf; discriminate Hf |].
    split; [| now left].
    split; [intros _; now left | reflexivity].
Qed.

Lemma speed_witness :
  (ROBOT_MODE initial_globals = FOLLOW_LINE ->
   Py.any (values (only [right_forward])) = true ->
   BASE_ROBOT_SPEED = BASE_ROBOT_SPEED)
  /\ (BASE_ROBOT_SPEED == 0 <->
      (ROBOT_MODE initial_globals = LOST_LINE_SEARCH
       \/ (ROBOT_MODE initial_globals = FOLLOW_LINE
           /\ ROBOT_MODE (mkGlobals FOLLOW_LINE 0) = LOST_LINE_SEARCH)))
  /\ (BASE_ROBOT_SPEED = 0 \/ BASE_ROBOT_SPEED = BASE_ROBOT_SPEED).
Proof.
  apply (speed_is_base_or_zero initial_globals (only [right_forward])
           (TURN_RATE * 2) BASE_ROBOT_SPEED (mkGlobals FOLLOW_LINE 0)
           [Debug FOLLOW_LINE (items (only [right_forward]))
              (TURN_RATE * 2) BASE_ROBOT_SPEED;
            Text "------------------------------"]).
  reflexivity.
Defined.

(** * Further properties of the code *)

(** ** Truncation and sampling *)

Lemma int_of_nonnegative (x : Q) : 0 <= x -> Py.int x = Qfloor x.
Proof.
  destruct x as [n d]. unfold Qle, Py.int, Qfloor. simpl. intros H.
  apply Z.quot_div_nonneg; lia.
Qed.

Lemma int_just_below_zero (x : Q) : - (1) < x -> x < 0 -> Py.int x = 0%Z.
Proof.
  destruct x as [n d]. unfold Qlt, Py.int. simpl. intros Hlo Hhi.
  assert (Hq : Z.quot (- n) (Zpos d) = 0%Z) by (apply Z.quot_small; lia).
  rewrite Z.quot_opp_l in Hq by lia. lia.
Qed.

Lemma int_of_very_negative (x : Q) : x <= - (1) -> (Py.int x <= -1)%Z.
Proof.
  destruct x as [n d]. unfold Qle, Py.int. simpl. intros H.
  assert (Hq : (1 <= Z.quot (- n) (Zpos d))%Z)
    by (apply Z.quot_le_lower_bound; lia).
  rewrite Z.quot_opp_l in Hq by lia. lia.
Qed.

Lemma floor_ge_iff (x : Q) (n : Z) : (n <= Qfloor x)%Z <-> inject_Z n <= x.
Proof.
  split; intros H.
  - apply Qle_trans with (inject_Z (Qfloor x)); [| apply Qfloor_le].
    now rewrite <- Zle_Qle.
  - rewrite <- (Qfloor_Z n). now apply Qfloor_resp_le.
Qed.

Lemma floor_lt_iff (x : Q) (n : Z) : (Qfloor x < n)%Z <-> x < inject_Z n.
Proof.
  pose proof (floor_ge_iff x n) as H. split; intros Hlt.
  - apply Qnot_le_lt. intros Hle. apply H in Hle. lia.
  - apply Z.nle_gt. intros Hle. apply H in Hle. lra.
Qed.

(** For a positive bound, truncation and the position agree on which
    side of the bound they are. *)
Lemma int_ge_iff (x : Q) (n : Z) :
  (0 < n)%Z -> (n <= Py.int x)%Z <-> inject_Z n <= x.
Proof.
  intros Hn. destruct (Qlt_le_dec x 0) as [Hneg | Hpos].
  - pose proof (int_of_negative x Hneg).
    assert (inject_Z 0 < inject_Z n) by (now rewrite <- Zlt_Qlt).
    change (inject_Z 0) with 0 in *.
    split; intros; [lia | lra].
  - rewrite int_of_nonnegative by assumption. apply floor_ge_iff.
Qed.

Lemma int_lt_iff (x : Q) (n : Z) :
  (0 < n)%Z -> (Py.int x < n)%Z <-> x < inject_Z n.
Proof.
  intros Hn. pose proof (int_ge_iff x n Hn) as H. split; intros Hlt.
  - apply Qnot_le_lt. intros Hle. apply H in Hle. lia.
  - apply Z.nle_gt. intros Hle. apply H in Hle. lra.
Qed.

Lemma int_nonneg_iff (x : Q) : (0 <= Py.int x)%Z <-> - (1) < x.
Proof.
  split; intros H.
  - apply Qnot_le_lt. intros Hle.
    pose proof (int_of_very_negative x Hle). lia.
  - destruct (Qlt_le_dec x 0) as [Hneg | Hpos].
    + rewrite int_just_below_zero by assumption. lia.
    + rewrite int_of_nonnegative by assumption.
      apply (floor_ge_iff x 0). exact Hpos.
Qed.

Lemma int_is_clipped_floor (x : Q) :
  - (1) < x -> Py.int x = Z.max 0 (Qfloor x).
Proof.
  intros H. destruct (Qlt_le_dec x 0) as [Hneg | Hpos].
  - rewrite int_just_below_zero by assumption.
    assert (Qfloor x < 0)%Z by (apply floor_lt_iff; exact Hneg). lia.
  - rewrite int_of_nonnegative by assumption.
    assert (0 <= Qfloor x)%Z by (apply floor_ge_iff; exact Hpos). lia.
Qed.

(** X1: on any surface, [get_pixel_color] reads the pixel that holds the
    position, with the coordinates truncated towards zero: a position
    with -1 < x < WIDTH and -1 < y < HEIGHT reads the pixel
    (max 0 (floor x), max 0 (floor y)), so the strip one pixel wide to
    the left of and above the screen is read from column 0 and row 0;
    every other position gives WHITE without reading the surface. *)
Theorem get_pixel_color_reads_truncated_pixel :
  forall (win : Surface) (x y : Q),
    (- (1) < x /\ x < inject_Z WIDTH /\ - (1) < y /\ y < inject_Z HEIGHT ->
     get_pixel_color win x y
     = Ok (win (Z.max 0 (Qfloor x)) (Z.max 0 (Qfloor y))))
    /\ (x <= - (1) \/ inject_Z WIDTH <= x
        \/ y <= - (1) \/ inject_Z HEIGHT <= y ->
        get_pixel_color win x y = Ok WHITE).
Proof.
  intros win x y.
  assert (HW : (0 < WIDTH)%Z) by reflexivity.
  assert (HH : (0 < HEIGHT)%Z) by reflexivity.
  unfold get_pixel_color, get_at. split.
  - intros (Hx0 & Hx1 & Hy0 & Hy1).
    apply int_nonneg_iff in Hx0 as Hix, Hy0 as Hiy.
    apply (int_lt_iff x WIDTH HW) in Hx1.
    apply (int_lt_iff y HEIGHT HH) in Hy1.
    apply Z.leb_le in Hix, Hiy. apply Z.ltb_lt in Hx1, Hy1.
    rewrite Hix, Hiy, Hx1, Hy1. simpl.
    now rewrite !int_is_clipped_floor by assumption.
  - intros Hout.
    assert (Hguard : ((0 <=? Py.int x) && (Py.int x <? WIDTH)
                      && (0 <=? Py.int y) && (Py.int y <? HEIGHT))%Z = false).
    { apply not_true_is_false. intros Hin.
      rewrite !andb_true_iff, !Z.leb_le, !Z.ltb_lt in Hin.
      destruct Hin as [[[Hx0 Hx1] Hy0] Hy1].
      apply int_nonneg_iff in Hx0, Hy0.
      apply (int_lt_iff x WIDTH HW) in Hx1.
      apply (int_lt_iff y HEIGHT HH) in Hy1.
      destruct Hout as [H | [H | [H | H]]]; lra. }
    now rewrite Hguard.
Qed.

Lemma get_pixel_color_witness :
  get_pixel_color WIN (- (1 # 2)) (225 # 2)
  = Ok (WIN (Z.max 0 (Qfloor (- (1 # 2)))) (Z.max 0 (Qfloor (225 # 2))))
  /\ get_pixel_color WIN (- (1)) 300 = Ok WHITE.
Proof.
  split.
  - apply (proj1 (get_pixel_color_reads_truncated_pixel WIN
                    (- (1 # 2)) (225 # 2))).
    repeat split.
  - apply (proj2 (get_pixel_color_reads_truncated_pixel WIN (- (1)) 300)).
    left. discriminate.
Defined.

(** ** The track *)

(** The pixels of the track surface that read as on the line. *)
Lemma WIN_on_line_iff (px py : Z) :
  is_on_line (WIN px py) = true <->
  (in_outer_rect px py /\ ~ (125 <= px < 675 /\ 125 <= py < 475)%Z).
Proof.
  unfold WIN, draw_track, draw_rect, in_rect, fill, in_outer_rect.
  cbn [rx ry rw rh].
  change (100 + 25)%Z with 125%Z. change (600 - 2 * 25)%Z with 550%Z.
  change (400 - 2 * 25)%Z with 350%Z.
  change (125 + 550)%Z with 675%Z. change (125 + 350)%Z with 475%Z.
  change (100 + 600)%Z with 700%Z. change (100 + 400)%Z with 500%Z.
  destruct (Z.leb_spec 125 px), (Z.ltb_spec px 675), (Z.leb_spec 125 py),
    (Z.ltb_spec py 475), (Z.leb_spec 100 px), (Z.ltb_spec px 700),
    (Z.leb_spec 100 py), (Z.ltb_spec py 500); cbn [andb];
    change (is_on_line WHITE) with false;
    change (is_on_line BLACK) with true;
    (split;
     [ intros Hd;
       first [discriminate Hd | split; [lia | intros [? ?]; lia]]
     | intros [Ho Hi];
       first [reflexivity | exfalso; apply Hi; lia | exfalso; lia] ]).
Qed.

(** X2: on the track surface a sensor reads active exactly when its
    position is over the track, the band 25 wide between the rectangle
    [100, 700) x [100, 500) and the rectangle [125, 675) x [125, 475)
    inside it; this holds for every position, on the screen or not. *)
Theorem sensor_is_active_exactly_over_the_track :
  forall x y : Q,
    exists c,
      get_pixel_color WIN x y = Ok c
      /\ (is_on_line c = true <-> on_track x y).
Proof.
  intros x y. unfold get_pixel_color, get_at, on_track.
  destruct ((0 <=? Py.int x) && (Py.int x <? WIDTH)
            && (0 <=? Py.int y) && (Py.int y <? HEIGHT))%Z eqn:Hguard.
  - exists (WIN (Py.int x) (Py.int y)). split; [reflexivity |].
    rewrite WIN_on_line_iff. unfold in_outer_rect.
    rewrite (int_ge_iff x 100), (int_lt_iff x 700), (int_ge_iff y 100),
      (int_lt_iff y 500), (int_ge_iff x 125), (int_lt_iff x 675),
      (int_ge_iff y 125), (int_lt_iff y 475) by reflexivity.
    reflexivity.
  - exists WHITE. split; [reflexivity |].
    split; [discriminate |].
    intros [[[Hx0 Hx1] [Hy0 Hy1]] _]. exfalso.
    apply (int_ge_iff x 100 eq_refl) in Hx0.
    apply (int_lt_iff x 700 eq_refl) in Hx1.
    apply (int_ge_iff y 100 eq_refl) in Hy0.
    apply (int_lt_iff y 500 eq_refl) in Hy1.
    assert (Hin : ((0 <=? Py.int x) && (Py.int x <? WIDTH)
                   && (0 <=? Py.int y) && (Py.int y <? HEIGHT))%Z = true).
    { rewrite !andb_true_iff, !Z.leb_le, !Z.ltb_lt. unfold WIDTH, HEIGHT. lia. }
    congruence.
Qed.

(** X3: [draw_track] paints the outer rectangle and nothing else: a
    pixel outside it keeps the colour it had, a pixel inside it gets the
    colour of the track surface whatever was there before; so drawing
    the track twice is drawing it once. *)
Theorem draw_track_paints_the_outer_rectangle_only :
  forall (win : Surface) (px py : Z),
    (in_outer_rect px py -> draw_track win px py = WIN px py)
    /\ (~ in_outer_rect px py -> draw_track win px py = win px py)
    /\ draw_track (draw_track win) px py = draw_track win px py.
Proof.
  intros win px py.
  unfold WIN, draw_track, draw_rect, in_rect, fill, in_outer_rect. simpl.
  destruct (Z.leb_spec 125 px), (Z.ltb_spec px 675), (Z.leb_spec 125 py),
    (Z.ltb_spec py 475); simpl;
    destruct (Z.leb_spec 100 px), (Z.ltb_spec px 700), (Z.leb_spec 100 py),
      (Z.ltb_spec py 500); simpl;
    (split; [| split]); try reflexivity; intros; lia.
Qed.

Lemma draw_track_witness :
  draw_track (fill (12, 34, 56)%Z) 110%Z 300%Z = WIN 110%Z 300%Z
  /\ draw_track (fill (12, 34, 56)%Z) 50%Z 300%Z = fill (12, 34, 56)%Z 50%Z 300%Z.
Proof.
  split.
  - apply (proj1 (draw_track_paints_the_outer_rectangle_only
                    (fill (12, 34, 56)%Z) 110%Z 300%Z)).
    unfold in_outer_rect. lia.
  - apply (proj1 (proj2 (draw_track_paints_the_outer_rectangle_only
                           (fill (12, 34, 56)%Z) 50%Z 300%Z))).
    unfold in_outer_rect. lia.
Defined.

(** X4: widening the tolerance of [is_on_line] never turns an active
    reading inactive; with a tolerance of 0 or less nothing is on the
    line, not even the line colour itself; with a positive tolerance
    the line colour is; and the test is symmetric in the two colours. *)
Theorem is_on_line_grows_with_tolerance :
  forall (c line_color : color) (tolerance tolerance' : Z),
    ((tolerance <= tolerance')%Z ->
     is_on_line_with c line_color tolerance = true ->
     is_on_line_with c line_color tolerance' = true)
    /\ ((tolerance <= 0)%Z -> is_on_line_with c line_color tolerance = false)
    /\ ((0 < tolerance)%Z -> is_on_line_with c c tolerance = true)
    /\ is_on_line_with c line_color tolerance
       = is_on_line_with line_color c tolerance.
Proof.
  intros c line_color tolerance tolerance'.
  split; [| split; [| split]].
  - intros Hle. rewrite !is_on_line_with_iff. lia.
  - intros Hle. apply not_true_is_false.
    rewrite is_on_line_with_iff. lia.
  - intros Hpos. rewrite is_on_line_with_iff. lia.
  - destruct c as [[r g] b], line_color as [[lr lg] lb].
    unfold is_on_line_with.
    replace (Z.abs (r - lr)) with (Z.abs (lr - r)) by lia.
    replace (Z.abs (g - lg)) with (Z.abs (lg - g)) by lia.
    replace (Z.abs (b - lb)) with (Z.abs (lb - b)) by lia.
    reflexivity.
Qed.

Lemma is_on_line_tolerance_witness :
  is_on_line_with (70, 10, 0)%Z BLACK 110 = true
  /\ is_on_line_with BLACK BLACK 0 = false
  /\ is_on_line_with WHITE WHITE 1 = true.
Proof.
  split; [| split].
  - apply (proj1 (is_on_line_grows_with_tolerance (70, 10, 0)%Z BLACK 80 110));
      [lia | reflexivity].
  - apply (proj1 (proj2 (is_on_line_grows_with_tolerance BLACK BLACK 0 0))).
    lia.
  - apply (proj1 (proj2 (proj2
             (is_on_line_grows_with_tolerance WHITE BLACK 1 1)))).
    lia.
Defined.

(** ** More on the controller *)

(** A follow frame that sees the line. *)
Lemma decide_follow_on_line (g : Globals) (s : SensorStates) :
  ROBOT_MODE g = FOLLOW_LINE ->
  Py.any (values s) = true ->
  decide_robot_action g s
  = finish (mkGlobals FOLLOW_LINE 0) s (follow_turn s) BASE_ROBOT_SPEED [].
Proof.
  intros Hmode Hany. rewrite decide_follow by assumption.
  rewrite Hany. simpl negb. cbv iota. unfold follow_turn.
  destruct (s center); reflexivity.
Qed.

(** Any frame that sees the line returns in follow mode, counter 0. *)
Lemma frame_on_line_returns_to_follow (g : Globals) (s : SensorStates) :
  Py.any (values s) = true ->
  exists turn speed out,
    decide_robot_action g s
    = Return turn speed (mkGlobals FOLLOW_LINE 0) out.
Proof.
  intros Hany. destruct (ROBOT_MODE g) eqn:Hmode.
  - rewrite decide_follow_on_line by assumption. unfold finish. eauto.
  - rewrite decide_search by assumption. cbv zeta. rewrite Hany.
    unfold finish. eauto.
Qed.

Lemma reachable_counter_bounds (g : Globals) :
  reachable g ->
  (0 <= LOST_LINE_COUNTER g <= MAX_LOST_TIME_FRAMES)%Z.
Proof.
  unfold MAX_LOST_TIME_FRAMES.
  induction 1 as [| g s turn speed g' out Hreach IH Hret].
  - simpl. lia.
  - apply decide_returns in Hret.
    destruct Hret as [Hm Ha | Hm Ha | Hm Ha | Hm Ha Hc]; simpl; try lia.
    unfold MAX_LOST_TIME_FRAMES in Hc. lia.
Qed.

(** X5: in every state a run can reach the counter lies between 0 and
    MAX_LOST_TIME_FRAMES, and a call exits only from the one state in
    which the search has lasted exactly MAX_LOST_TIME_FRAMES frames: in
    search mode, with the counter at 120 and no sensor on the line. *)
Theorem exit_only_with_counter_at_limit :
  forall g : Globals,
    reachable g ->
    (0 <= LOST_LINE_COUNTER g <= MAX_LOST_TIME_FRAMES)%Z
    /\ forall (s : SensorStates) (g' : Globals) (out : list line),
         decide_robot_action g s = SystemExit g' out ->
         ROBOT_MODE g = LOST_LINE_SEARCH
         /\ LOST_LINE_COUNTER g = MAX_LOST_TIME_FRAMES
         /\ Py.any (values s) = false
         /\ g' = mkGlobals LOST_LINE_SEARCH (MAX_LOST_TIME_FRAMES + 1).
Proof.
  intros g Hreach.
  pose proof (reachable_counter_bounds g Hreach) as Hbounds.
  split; [assumption |].
  intros s g' out Hexit.
  destruct (decide_exits g s g' out Hexit) as [Hout _].
  unfold times_out in Hout.
  destruct (ROBOT_MODE g) eqn:Hmode; [discriminate |].
  apply andb_true_iff in Hout. destruct Hout as [Hany Hover].
  apply negb_true_iff in Hany.
  assert (Hc : LOST_LINE_COUNTER g = MAX_LOST_TIME_FRAMES).
  { destruct (Z.gtb_spec (LOST_LINE_COUNTER g + 1) MAX_LOST_TIME_FRAMES);
      [lia | discriminate]. }
  repeat split; try assumption.
  rewrite decide_search in Hexit by assumption. cbv zeta in Hexit.
  rewrite Hany, Hover in Hexit. inversion Hexit. now rewrite Hc.
Qed.

Lemma exit_only_witness :
  (0 <= LOST_LINE_COUNTER (mkGlobals LOST_LINE_SEARCH 120)
   <= MAX_LOST_TIME_FRAMES)%Z
  /\ (ROBOT_MODE (mkGlobals LOST_LINE_SEARCH 120) = LOST_LINE_SEARCH
      /\ LOST_LINE_COUNTER (mkGlobals LOST_LINE_SEARCH 120)
         = MAX_LOST_TIME_FRAMES
      /\ Py.any (values all_off) = false
      /\ mkGlobals LOST_LINE_SEARCH 121
         = mkGlobals LOST_LINE_SEARCH (MAX_LOST_TIME_FRAMES + 1)).
Proof.
  pose proof (exit_only_with_counter_at_limit
                (mkGlobals LOST_LINE_SEARCH 120)
                (reachable_search 120 ltac:(discriminate))) as [Hb Hexit].
  split; [exact Hb |].
  exact (Hexit all_off (mkGlobals LOST_LINE_SEARCH 121)
           [Text "Lost line for too long, stopping simulation."] eq_refl).
Defined.

Lemma any_mirror (s : SensorStates) :
  Py.any (values (mirror s)) = Py.any (values s).
Proof.
  unfold Py.any, values, sensor_names, mirror. simpl.
  destruct (s center), (s left), (s right), (s left_forward),
    (s right_forward); reflexivity.
Qed.

Lemma follow_turn_mirror (s : SensorStates) :
  follow_turn (mirror s) == - follow_turn s.
Proof.
  unfold follow_turn, clamp_turn, steering_error, Py.sum, sensor_names,
    mirror.
  simpl.
  destruct (s center), (s left), (s right), (s left_forward),
    (s right_forward); reflexivity.
Qed.

(** X6: the follow-mode controller is symmetric.  Exchanging the left
    and right sensors (left with right, left_forward with
    right_forward) gives the opposite turn, the same speed and the same
    globals. *)
Theorem follow_mode_is_mirror_symmetric :
  forall (g : Globals) (s : SensorStates) (turn speed : Q) (g' : Globals)
         (out : list line),
    ROBOT_MODE g = FOLLOW_LINE ->
    decide_robot_action g s = Return turn speed g' out ->
    exists turn' out',
      decide_robot_action g (mirror s) = Return turn' speed g' out'
      /\ turn' == - turn.
Proof.
  intros g s turn speed g' out Hmode Hret.
  apply decide_returns in Hret.
  destruct Hret as [Hm Ha | Hm Ha | Hm Ha | Hm Ha Hc];
    try (rewrite Hmode in Hm; discriminate Hm).
  - rewrite decide_follow by assumption. rewrite any_mirror, Ha.
    unfold finish. simpl. do 2 eexists. split; reflexivity.
  - rewrite decide_follow_on_line by (rewrite ?any_mirror; assumption).
    unfold finish. do 2 eexists. split; [reflexivity |].
    apply follow_turn_mirror.
Qed.

Lemma follow_mirror_witness :
  exists turn' out',
    decide_robot_action initial_globals (mirror (only [left; left_forward]))
    = Return turn' BASE_ROBOT_SPEED (mkGlobals FOLLOW_LINE 0) out'
    /\ turn' == - (- TURN_RATE * 1.5).
Proof.
  apply (follow_mode_is_mirror_symmetric initial_globals
           (only [left; left_forward]) (- TURN_RATE * 1.5) BASE_ROBOT_SPEED
           (mkGlobals FOLLOW_LINE 0)
           [Debug FOLLOW_LINE (items (only [left; left_forward]))
              (- TURN_RATE * 1.5) BASE_ROBOT_SPEED;
            Text "------------------------------"]);
    reflexivity.
Defined.

(** X7: with the centre sensor off the line, the clamp never comes into
    play.  The turn is -1.5, +1.5, -2 or +2 times TURN_RATE when a
    priority rule decides, and it is 0 whenever none does: the weighted
    sum of the fallback is only reached when left and right agree and
    left_forward and right_forward agree, and then the weights cancel. *)
Theorem fallback_turn_is_zero :
  forall (g : Globals) (s : SensorStates),
    ROBOT_MODE g = FOLLOW_LINE ->
    s center = false ->
    Py.any (values s) = true ->
    exists turn out,
      decide_robot_action g s
      = Return turn BASE_ROBOT_SPEED (mkGlobals FOLLOW_LINE 0) out
      /\ (first_match priority_rules s = None ->
          turn == 0 /\ s left = s right /\ s left_forward = s right_forward)
      /\ (turn == - (1.5 * TURN_RATE) \/ turn == 1.5 * TURN_RATE
          \/ turn == - (2 * TURN_RATE) \/ turn == 2 * TURN_RATE
          \/ turn == 0).
Proof.
  intros g s Hmode Hcenter Hany.
  rewrite decide_follow_on_line by assumption.
  unfold finish. do 2 eexists. split; [reflexivity |].
  unfold follow_turn, clamp_turn, steering_error, Py.sum, sensor_names,
    priority_rules, first_match.
  simpl. rewrite !Hcenter.
  destruct (s left), (s right), (s left_forward), (s right_forward);
    simpl;
    (split;
     [ intros Hnone;
       first [discriminate Hnone | repeat split; reflexivity]
     | first [ left; reflexivity
             | right; left; reflexivity
             | right; right; left; reflexivity
             | right; right; right; left; reflexivity
             | right; right; right; right; reflexivity ] ]).
Qed.

Lemma fallback_turn_witness :
  exists turn out,
    decide_robot_action initial_globals
      (only [left; right; left_forward; right_forward])
    = Return turn BASE_ROBOT_SPEED (mkGlobals FOLLOW_LINE 0) out
    /\ (first_match priority_rules
          (only [left; right; left_forward; right_forward]) = None ->
        turn == 0
        /\ only [left; right; left_forward; right_forward] left
           = only [left; right; left_forward; right_forward] right
        /\ only [left; right; left_forward; right_forward] left_forward
           = only [left; right; left_forward; right_forward] right_forward)
    /\ (turn == - (1.5 * TURN_RATE) \/ turn == 1.5 * TURN_RATE
        \/ turn == - (2 * TURN_RATE) \/ turn == 2 * TURN_RATE
        \/ turn == 0).
Proof.
  apply (fallback_turn_is_zero initial_globals
           (only [left; right; left_forward; right_forward]));
    reflexivity.
Defined.

(** X8: the search time is never carried over.  After a frame that sees
    the line, from any mode and any counter, the line can again be lost
    for a full MAX_LOST_TIME_FRAMES search frames: the frame that loses
    it and the [k <= 120] search frames after it all return, leaving
    the counter at [k], and the next search frame exits. *)
Theorem every_recovery_restores_the_full_search_time :
  forall (g : Globals) (s : SensorStates),
    Py.any (values s) = true ->
    exists turn speed,
      (forall k : nat,
          (k <= 120)%nat ->
          drive g (s :: all_off :: repeat all_off k)
          = Alive (mkGlobals LOST_LINE_SEARCH (Z.of_nat k))
                  ((turn, speed) :: (0, 0) :: search_commands 0 k))
      /\ (forall more : nat,
            drive g (s :: all_off :: repeat all_off (120 + S more))
            = Halted 122 ((turn, speed) :: (0, 0) :: search_commands 0 120)).
Proof.
  intros g s Hany.
  destruct (frame_on_line_returns_to_follow g s Hany)
    as (turn & speed & out & Hret).
  destruct (follow_frame_loses_line (mkGlobals FOLLOW_LINE 0) eq_refl)
    as [out' Hlost].
  exists turn, speed. split.
  - intros k Hk. unfold drive. cbn [drive_from]. rewrite Hret, Hlost.
    rewrite drive_from_search by (unfold MAX_LOST_TIME_FRAMES; lia).
    reflexivity.
  - intros more. unfold drive. cbn [drive_from]. rewrite Hret, Hlost.
    rewrite drive_from_search_halts by reflexivity. reflexivity.
Qed.

Lemma every_recovery_witness :
  exists turn speed,
    (forall k : nat,
        (k <= 120)%nat ->
        drive (mkGlobals LOST_LINE_SEARCH 119)
          (only [center] :: all_off :: repeat all_off k)
        = Alive (mkGlobals LOST_LINE_SEARCH (Z.of_nat k))
                ((turn, speed) :: (0, 0) :: search_commands 0 k))
    /\ (forall more : nat,
          drive (mkGlobals LOST_LINE_SEARCH 119)
            (only [center] :: all_off :: repeat all_off (120 + S more))
          = Halted 122 ((turn, speed) :: (0, 0) :: search_commands 0 120)).
Proof.
  apply (every_recovery_restores_the_full_search_time
           (mkGlobals LOST_LINE_SEARCH 119) (only [center])).
  reflexivity.
Defined.

(** Splits the printed lines into the message, if any, and the two
    lines every returning call ends with. *)
Ltac printed_before :=
  match goal with
  | |- exists pre, (Text ?m :: _ :: _ :: nil) = _ /\ _ =>
      exists [Text m]; split; [reflexivity |]
  | |- exists pre, (_ :: _ :: nil) = _ /\ _ =>
      exists (@nil line); split; [reflexivity |]
  end.

(** X9: what a returning call prints.  Its last two lines are the debug
    line, which reports the mode the call leaves, the sensor states it
    was given and exactly the turn and speed it returns, and the
    separator.  One message precedes them when the call changed the
    mode, and nothing precedes them when it did not. *)
Theorem debug_line_reports_the_returned_command :
  forall (g : Globals) (s : SensorStates) (turn speed : Q) (g' : Globals)
         (out : list line),
    decide_robot_action g s = Return turn speed g' out ->
    exists pre,
      out = pre ++ [Debug (ROBOT_MODE g') (items s) turn speed;
                    Text "------------------------------"]
      /\ (ROBOT_MODE g' = ROBOT_MODE g -> pre = [])
      /\ (ROBOT_MODE g' <> ROBOT_MODE g -> exists message, pre = [Text message]).
Proof.
  intros g s turn speed g' out.
  destruct (ROBOT_MODE g) eqn:Hmode.
  - rewrite decide_follow by assumption. unfold finish.
    destruct (negb (Py.any (values s))); [| destruct (s center)];
      intros H; inversion H; subst; cbn [ROBOT_MODE];
      printed_before;
      split; intros Hm; first [discriminate Hm | reflexivity
                              | now contradiction Hm | eauto].
  - rewrite decide_search by assumption. cbv zeta. unfold finish.
    destruct (Py.any (values s));
      [| destruct (LOST_LINE_COUNTER g + 1 >? MAX_LOST_TIME_FRAMES)%Z;
         [discriminate |]];
      intros H; inversion H; subst; cbn [ROBOT_MODE];
      printed_before;
      split; intros Hm; first [discriminate Hm | reflexivity
                              | now contradiction Hm | eauto].
Qed.

Lemma debug_line_witness :
  exists pre,
    [Text "MODE: Lost line from FOLLOW_LINE, entering search.";
     Debug LOST_LINE_SEARCH (items all_off) 0 0;
     Text "------------------------------"]
    = pre ++ [Debug (ROBOT_MODE (mkGlobals LOST_LINE_SEARCH 0))
                (items all_off) 0 0;
              Text "------------------------------"]
    /\ (ROBOT_MODE (mkGlobals LOST_LINE_SEARCH 0) = ROBOT_MODE initial_globals
        -> pre = [])
    /\ (ROBOT_MODE (mkGlobals LOST_LINE_SEARCH 0) <> ROBOT_MODE initial_globals
        -> exists message, pre = [Text message]).
Proof.
  apply (debug_line_reports_the_returned_command initial_globals all_off
           0 0 (mkGlobals LOST_LINE_SEARCH 0)).
  reflexivity.
Defined.

(** ** The sweep as a rotation *)

Lemma sweep_range_checked :
  forallb
    (fun k =>
       Qle_bool (- (3)) (total_turn (search_commands 0 k))
       && Qle_bool (total_turn (search_commands 0 k)) 87)
    (seq 0 121)
  = true.
Proof. vm_compute. reflexivity. Qed.

(** X10: the sweep of a search run is one-sided.  After [k <= 120]
    search frames with every sensor off, the turns returned so far add
    up to between -3 and +87 degrees: the robot sweeps up to 87 degrees
    to one side of the heading at which the search began and only 3
    degrees to the other.  After all 120 frames they add up to 0, so at
    the timeout the robot faces where it faced when the search began. *)
Theorem search_sweep_is_one_sided :
  forall k : nat,
    (k <= 120)%nat ->
    exists commands,
      drive (mkGlobals LOST_LINE_SEARCH 0) (repeat all_off k)
      = Alive (mkGlobals LOST_LINE_SEARCH (Z.of_nat k)) commands
      /\ - (3) <= total_turn commands
      /\ total_turn commands <= 87
      /\ (k = 120%nat -> total_turn commands == 0).
Proof.
  intros k Hk. exists (search_commands 0 k). split.
  { unfold drive.
    rewrite drive_from_search by (unfold MAX_LOST_TIME_FRAMES; lia).
    reflexivity. }
  pose proof sweep_range_checked as Hall.
  rewrite forallb_forall in Hall.
  specialize (Hall k ltac:(apply in_seq; lia)).
  apply andb_true_iff in Hall. destruct Hall as [Hlo Hhi].
  apply Qle_bool_iff in Hlo, Hhi.
  split; [assumption |]. split; [assumption |].
  intros ->. vm_compute. reflexivity.
Qed.

Lemma search_sweep_one_sided_witness :
  exists commands,
    drive (mkGlobals LOST_LINE_SEARCH 0) (repeat all_off 29)
    = Alive (mkGlobals LOST_LINE_SEARCH (Z.of_nat 29)) commands
    /\ - (3) <= total_turn commands
    /\ total_turn commands <= 87
    /\ (29%nat = 120%nat -> total_turn commands == 0).
Proof.
  apply (search_sweep_is_one_sided 29). lia.
Defined.

(** ** More on the kinematics *)

Lemma floor_sub_Z (q : Q) (k : Z) :
  Qfloor (q - inject_Z k) = (Qfloor q - k)%Z.
Proof.
  pose proof (Qfloor_le q) as Hlo. pose proof (Qlt_floor q) as Hhi.
  assert (H1 : (Qfloor q - k <= Qfloor (q - inject_Z k))%Z).
  { apply floor_ge_iff. unfold Zminus.
    rewrite inject_Z_plus, inject_Z_opp. lra. }
  assert (H2 : (Qfloor (q - inject_Z k) < Qfloor q - k + 1)%Z).
  { apply floor_lt_iff.
    replace (Qfloor q - k + 1)%Z with (Qfloor q + 1 + - k)%Z by lia.
    rewrite inject_Z_plus, inject_Z_opp. lra. }
  lia.
Qed.

Lemma mod_shift (a t b : Q) :
  0 < b -> Py.mod_ (Py.mod_ a b + t) b == Py.mod_ (a + t) b.
Proof.
  intros Hb. unfold Py.mod_.
  set (k := Qfloor (a / b)).
  assert (Hq : (a - b * inject_Z k + t) / b == (a + t) / b - inject_Z k)
    by (field; lra).
  rewrite (Qfloor_comp _ _ Hq), floor_sub_Z.
  unfold Zminus. rewrite inject_Z_plus, inject_Z_opp. ring.
Qed.

Lemma mod_small (a b : Q) : 0 <= a -> a < b -> Py.mod_ a b == a.
Proof.
  intros Ha Hb. unfold Py.mod_.
  assert (Hf : Qfloor (a / b) = 0%Z).
  { assert (H0 : (0 <= Qfloor (a / b))%Z).
    { apply floor_ge_iff. change (inject_Z 0) with 0.
      apply Qle_shift_div_l; lra. }
    assert (H1 : (Qfloor (a / b) < 1)%Z).
    { apply floor_lt_iff. change (inject_Z 1) with 1.
      apply Qlt_shift_div_r; lra. }
    lia. }
  rewrite Hf. change (inject_Z 0) with 0. ring.
Qed.

Lemma fold_plus_from (xs : list Q) (a : Q) :
  fold_left Qplus xs a == a + fold_left Qplus xs 0.
Proof.
  revert a. induction xs as [| x xs IH]; intros a; simpl.
  - ring.
  - rewrite (IH (a + x)), (IH (0 + x)). ring.
Qed.

Lemma total_turn_cons (c : Q * Q) (commands : list (Q * Q)) :
  total_turn (c :: commands) == fst c + total_turn commands.
Proof.
  unfold total_turn, Py.sum. simpl. rewrite fold_plus_from. ring.
Qed.

(** X11: turns add up modulo 360.  From a pose whose angle is in
    [0, 360), integrating the commands of any number of frames in a row
    leaves the angle (angle + sum of the turns) mod 360, whatever the
    speeds and however often the sum wrapped on the way. *)
Theorem turns_add_up_modulo_360 :
  forall (cos_deg sin_deg : Q -> Q) (commands : list (Q * Q)) (p : Pose),
    0 <= robot_angle p /\ robot_angle p < 360 ->
    robot_angle (integrate_all cos_deg sin_deg commands p)
    == Py.mod_ (robot_angle p + total_turn commands) 360.
Proof.
  intros cos_deg sin_deg commands.
  induction commands as [| c commands IH]; intros p [Hlo Hhi].
  - simpl. rewrite (mod_comp _ (robot_angle p) _ 360);
      [| unfold total_turn, Py.sum; simpl; ring | reflexivity].
    symmetry. now apply mod_small.
  - change (integrate_all cos_deg sin_deg (c :: commands) p)
      with (integrate_all cos_deg sin_deg commands
              (integrate cos_deg sin_deg p (fst c) (snd c))).
    rewrite IH.
    + unfold integrate. cbn [robot_angle].
      rewrite mod_shift by reflexivity.
      apply mod_comp; [| reflexivity].
      rewrite total_turn_cons. ring.
    + unfold integrate. cbn [robot_angle].
      apply mod_range. reflexivity.
Qed.

Lemma turns_add_up_witness :
  robot_angle
    (integrate_all (fun _ => 1) (fun _ => 0)
       [(- (4), 2); (6, 2); (- (3), 0); (- (4), 2)] initial_pose)
  == Py.mod_ (robot_angle initial_pose
              + total_turn [(- (4), 2); (6, 2); (- (3), 0); (- (4), 2)])
       360.
Proof.
  apply (turns_add_up_modulo_360 (fun _ => 1) (fun _ => 0)
           [(- (4), 2); (6, 2); (- (3), 0); (- (4), 2)] initial_pose).
  split; [discriminate | reflexivity].
Defined.

Lemma clamp_keeps_inside (x x' lo hi : Q) :
  lo <= x -> x <= hi -> x' == x -> Py.max lo (Py.min hi x') == x.
Proof.
  intros Hlo Hhi Hx. unfold Py.max, Py.min.
  destruct (Qlt_le_dec x' hi);
    [destruct (Qlt_le_dec lo x') | destruct (Qlt_le_dec lo hi)]; lra.
Qed.

Lemma integrate_at_rest (cos_deg sin_deg : Q -> Q) (p : Pose) (turn : Q) :
  on_screen p ->
  robot_x (integrate cos_deg sin_deg p turn 0) == robot_x p
  /\ robot_y (integrate cos_deg sin_deg p turn 0) == robot_y p.
Proof.
  intros [[Hx0 Hx1] [Hy0 Hy1]]. unfold integrate. cbn [robot_x robot_y].
  split; apply clamp_keeps_inside; try assumption; ring.
Qed.

(** X12: while it searches the robot turns on the spot.  A frame that
    enters the search or is entered in search mode leaves the position
    of a robot that is on the screen as it was; the frame that enters
    the search also leaves the angle as it was. *)
Theorem search_frames_turn_on_the_spot :
  forall (cos_deg sin_deg : Q -> Q) (p p' : Pose) (g g' : Globals),
    on_screen p ->
    frame cos_deg sin_deg p g = Next p' g' ->
    ROBOT_MODE g = LOST_LINE_SEARCH \/ ROBOT_MODE g' = LOST_LINE_SEARCH ->
    robot_x p' == robot_x p
    /\ robot_y p' == robot_y p
    /\ (ROBOT_MODE g = FOLLOW_LINE ->
        0 <= robot_angle p /\ robot_angle p < 360 ->
        robot_angle p' == robot_angle p).
Proof.
  intros cos_deg sin_deg p p' g g' Hscreen Hframe Hsearch.
  unfold frame in Hframe.
  destruct (sense_line WIN _) as [s | e]; [| discriminate].
  destruct (decide_robot_action g s) as [turn speed g1 out | g1 out] eqn:Hret;
    [| discriminate].
  inversion Hframe; subst. apply decide_returns in Hret.
  destruct Hret as [Hm Ha | Hm Ha | Hm Ha | Hm Ha Hc].
  - destruct (integrate_at_rest cos_deg sin_deg p 0 Hscreen) as [Hx Hy].
    split; [exact Hx |]. split; [exact Hy |].
    intros _ [Hlo Hhi]. unfold integrate. cbn [robot_angle].
    rewrite (mod_comp _ (robot_angle p) _ 360); [| ring | reflexivity].
    now apply mod_small.
  - exfalso. destruct Hsearch as [H | H];
      [rewrite Hm in H | simpl in H]; discriminate H.
  - destruct (integrate_at_rest cos_deg sin_deg p
                (search_turn (LOST_LINE_COUNTER g + 1)) Hscreen) as [Hx Hy].
    split; [exact Hx |]. split; [exact Hy |].
    intros Hf. rewrite Hm in Hf. discriminate Hf.
  - destruct (integrate_at_rest cos_deg sin_deg p
                (search_turn (LOST_LINE_COUNTER g + 1)) Hscreen) as [Hx Hy].
    split; [exact Hx |]. split; [exact Hy |].
    intros Hf. rewrite Hm in Hf. discriminate Hf.
Qed.

Lemma search_on_the_spot_witness :
  robot_x (integrate (fun _ => 1) (fun _ => 0) (mkPose 300 300 0)
             (search_turn 6) 0)
  == robot_x (mkPose 300 300 0)
  /\ robot_y (integrate (fun _ => 1) (fun _ => 0) (mkPose 300 300 0)
                (search_turn 6) 0)
     == robot_y (mkPose 300 300 0)
  /\ (ROBOT_MODE (mkGlobals LOST_LINE_SEARCH 5) = FOLLOW_LINE ->
      0 <= robot_angle (mkPose 300 300 0)
      /\ robot_angle (mkPose 300 300 0) < 360 ->
      robot_angle (integrate (fun _ => 1) (fun _ => 0) (mkPose 300 300 0)
                     (search_turn 6) 0)
      == robot_angle (mkPose 300 300 0)).
Proof.
  apply (search_frames_turn_on_the_spot (fun _ => 1) (fun _ => 0)
           (mkPose 300 300 0)
           (integrate (fun _ => 1) (fun _ => 0) (mkPose 300 300 0)
              (search_turn 6) 0)
           (mkGlobals LOST_LINE_SEARCH 5) (mkGlobals LOST_LINE_SEARCH 6)).
  - repeat split; discriminate.
  - reflexivity.
  - left. reflexivity.
Defined.

(** ** The whole loop *)

(** What a frame that goes on keeps: the position on the screen, the
    angle a whole number of degrees in [0, 360), the globals reachable,
    and a search counter smaller than the number of frames run. *)
Lemma frame_keeps_the_loop_invariant (cos_deg sin_deg : Q -> Q)
    (p p' : Pose) (g g' : Globals) (n : nat) :
  whole_angle p ->
  reachable g ->
  (ROBOT_MODE g = LOST_LINE_SEARCH ->
   (LOST_LINE_COUNTER g + 1 <= Z.of_nat n)%Z) ->
  frame cos_deg sin_deg p g = Next p' g' ->
  on_screen p' /\ whole_angle p' /\ reachable g'
  /\ (ROBOT_MODE g' = LOST_LINE_SEARCH ->
      (LOST_LINE_COUNTER g' + 1 <= Z.of_nat (S n))%Z).
Proof.
  intros [a [Ha _]] Hreach Hcount Hframe.
  pose proof (frame_keeps_whole_degrees _ _ _ _ _ _ _ Ha Hframe) as Hwhole.
  unfold frame in Hframe.
  destruct (sense_line WIN _) as [s | e]; [| discriminate].
  destruct (decide_robot_action g s) as [turn speed g1 out | g1 out] eqn:Hret;
    [| discriminate].
  inversion Hframe; subst.
  split; [| split; [exact Hwhole | split]].
  - unfold on_screen, integrate. cbn [robot_x robot_y].
    split; apply clamp_range; now compute.
  - exact (reachable_step _ _ _ _ _ _ Hreach Hret).
  - apply decide_returns in Hret.
    destruct Hret as [Hm Ha' | Hm Ha' | Hm Ha' | Hm Ha' Hc];
      cbn [ROBOT_MODE LOST_LINE_COUNTER]; intros Hs;
      try discriminate Hs; try specialize (Hcount Hm); lia.
Qed.

Lemma frame_exits_late (cos_deg sin_deg : Q -> Q) (p : Pose) (g : Globals)
    (n : nat) :
  (ROBOT_MODE g = LOST_LINE_SEARCH ->
   (LOST_LINE_COUNTER g + 1 <= Z.of_nat n)%Z) ->
  frame cos_deg sin_deg p g = Exits ->
  (121 <= n)%nat.
Proof.
  intros Hcount Hframe. unfold frame in Hframe.
  destruct (sense_line WIN _) as [s | e]; [| discriminate].
  destruct (decide_robot_action g s) as [turn speed g1 out | g1 out] eqn:Hret;
    [discriminate |].
  destruct (decide_exits g s g1 out Hret) as [Hout _].
  unfold times_out in Hout.
  destruct (ROBOT_MODE g); [discriminate |].
  apply andb_true_iff in Hout. destruct Hout as [_ Hover].
  specialize (Hcount eq_refl). unfold MAX_LOST_TIME_FRAMES in Hover. lia.
Qed.

Lemma frame_never_raises (cos_deg sin_deg : Q -> Q) (p : Pose) (g : Globals)
    (e : exn) :
  frame cos_deg sin_deg p g <> Raises e.
Proof.
  unfold frame.
  destruct (sense_line_returns WIN
              (calculate_sensor_positions cos_deg sin_deg
                 (robot_x p) (robot_y p) (robot_angle p))) as (s & Hs & _).
  rewrite Hs. destruct (decide_robot_action g s); discriminate.
Qed.

Lemma main_loop_from (cos_deg sin_deg : Q -> Q) (events : list bool) :
  forall (n : nat) (p : Pose) (g : Globals),
    on_screen p ->
    whole_angle p ->
    reachable g ->
    (ROBOT_MODE g = LOST_LINE_SEARCH ->
     (LOST_LINE_COUNTER g + 1 <= Z.of_nat n)%Z) ->
    match main_loop cos_deg sin_deg events p g with
    | Running p' g' | Stopped p' g' =>
        on_screen p' /\ whole_angle p' /\ reachable g'
    | Aborted => (122 <= n + List.length events)%nat
    | Crashed _ => False
    end.
Proof.
  induction events as [| quit rest IH]; intros n p g Hscreen Hwhole Hreach Hcount.
  - simpl. auto.
  - cbn [main_loop].
    destruct (frame cos_deg sin_deg p g) as [p' g' | | e] eqn:Hframe.
    + destruct (frame_keeps_the_loop_invariant _ _ _ _ _ _ n
                  Hwhole Hreach Hcount Hframe) as (Hs & Hw & Hr & Hc).
      destruct quit; [auto |].
      specialize (IH (S n) p' g' Hs Hw Hr Hc).
      destruct (main_loop cos_deg sin_deg rest p' g'); try assumption.
      simpl. lia.
    + pose proof (frame_exits_late _ _ _ _ _ Hcount Hframe). simpl. lia.
    + exact (frame_never_raises _ _ _ _ _ Hframe).
Qed.

(** X13: the whole run.  Whatever the trigonometric functions return
    and whenever the QUIT events come, the loop started from the
    initial pose and globals never ends in an error.  As long as it
    runs, and when it is stopped by a QUIT event, the robot is on the
    screen, its angle is a whole number of degrees in [0, 360), and the
    globals are reachable (so the counter is at most 120).  It can
    abort on the lost line only in its 122nd frame or later. *)
Theorem main_loop_is_safe :
  forall (cos_deg sin_deg : Q -> Q) (events : list bool),
    match main_loop cos_deg sin_deg events initial_pose initial_globals with
    | Running p g | Stopped p g =>
        on_screen p /\ whole_angle p /\ reachable g
        /\ (0 <= LOST_LINE_COUNTER g <= MAX_LOST_TIME_FRAMES)%Z
    | Aborted => (122 <= List.length events)%nat
    | Crashed _ => False
    end.
Proof.
  intros cos_deg sin_deg events.
  assert (Hscreen : on_screen initial_pose)
    by (unfold on_screen; simpl; repeat split; discriminate).
  assert (Hwhole : whole_angle initial_pose)
    by (exists 0%Z; split; [reflexivity | lia]).
  pose proof (main_loop_from cos_deg sin_deg events 0 initial_pose
                initial_globals Hscreen Hwhole reachable_initial
                ltac:(discriminate)) as H.
  destruct (main_loop cos_deg sin_deg events initial_pose initial_globals);
    try assumption;
    destruct H as (Hs & Hw & Hr);
    (split; [exact Hs | split; [exact Hw | split; [exact Hr |]]];
     exact (reachable_counter_bounds _ Hr)).
Qed.

(** X14: the states of the controller.  The globals a run can reach are
    exactly follow mode with the counter at 0 and search mode with the
    counter at 0, 1, ..., 120: 122 states in all. *)
Theorem reachable_states_are_follow_0_and_search_0_to_120 :
  forall g : Globals,
    reachable g <->
    (g = mkGlobals FOLLOW_LINE 0
     \/ exists k : nat,
          (k <= 120)%nat /\ g = mkGlobals LOST_LINE_SEARCH (Z.of_nat k)).
Proof.
  intros g. split.
  - intros Hreach.
    destruct Hreach as [| g s turn speed g' out Hreach Hret];
      [now left |].
    pose proof (reachable_counter_bounds g Hreach) as Hb.
    apply decide_returns in Hret.
    destruct Hret as [Hm Ha | Hm Ha | Hm Ha | Hm Ha Hc].
    + right. exists 0%nat. split; [lia | reflexivity].
    + now left.
    + now left.
    + right. exists (Z.to_nat (LOST_LINE_COUNTER g + 1)).
      unfold MAX_LOST_TIME_FRAMES in *.
      split; [lia |]. f_equal. lia.
  - intros [-> | (k & Hk & ->)].
    + exact reachable_initial.
    + apply reachable_search. unfold MAX_LOST_TIME_FRAMES. lia.
Qed.

(** ** The loop and the controller *)

Lemma loop_follows_drive_from (cos_deg sin_deg : Q -> Q) (n : nat) :
  forall (k : nat) (acc : list (Q * Q)) (p : Pose) (g : Globals),
    match drive_from k acc g (sensed_states cos_deg sin_deg n p g) with
    | Alive g' commands =>
        exists new,
          commands = acc ++ new
          /\ main_loop cos_deg sin_deg (repeat false n) p g
             = Running (integrate_all cos_deg sin_deg new p) g'
    | Halted _ _ =>
        main_loop cos_deg sin_deg (repeat false n) p g = Aborted
    end.
Proof.
  induction n as [| n IH]; intros k acc p g.
  - simpl. exists []. now rewrite app_nil_r.
  - cbn [sensed_states repeat main_loop]. unfold frame.
    destruct (sense_line_returns WIN
                (calculate_sensor_positions cos_deg sin_deg
                   (robot_x p) (robot_y p) (robot_angle p))) as (s & Hs & _).
    rewrite Hs. cbn [drive_from].
    destruct (decide_robot_action g s) as [turn speed g1 out | g1 out];
      [| reflexivity].
    specialize (IH (S k) (acc ++ [(turn, speed)])
                  (integrate cos_deg sin_deg p turn speed) g1).
    destruct (drive_from (S k) (acc ++ [(turn, speed)]) g1 _)
      as [g2 commands | halted commands]; [| exact IH].
    destruct IH as (new & Hcommands & Hloop).
    exists ((turn, speed) :: new). split.
    + now rewrite Hcommands, <- app_assoc.
    + exact Hloop.
Qed.

(** X15: the loop is the controller driven by what the sensors see.
    For a run of [n] frames without a QUIT event, feeding the sensor
    states sensed on the way to the controller, one call per frame,
    gives the globals of the loop; integrating the returned commands in
    order gives its pose; and the loop aborts exactly when one of
    these calls exits. *)
Theorem main_loop_follows_the_controller :
  forall (cos_deg sin_deg : Q -> Q) (n : nat) (p : Pose) (g : Globals),
    match drive g (sensed_states cos_deg sin_deg n p g) with
    | Alive g' commands =>
        main_loop cos_deg sin_deg (repeat false n) p g
        = Running (integrate_all cos_deg sin_deg commands p) g'
    | Halted _ _ =>
        main_loop cos_deg sin_deg (repeat false n) p g = Aborted
    end.
Proof.
  intros cos_deg sin_deg n p g. unfold drive.
  pose proof (loop_follows_drive_from cos_deg sin_deg n 0 [] p g) as H.
  destruct (drive_from 0 [] g (sensed_states cos_deg sin_deg n p g))
    as [g' commands | halted commands]; [| exact H].
  destruct H as (new & Hcommands & Hloop). simpl in Hcommands.
  now subst.
Qed.

(** ** The debug markers *)

(** X16: the label of a debug marker tells the side of the sensor and
    its reading, not the sensor.  For the five sensor names the marker
    is always drawn; two markers carry the same label exactly when the
    sensors are on the same side (centre, left or right) and read the
    same, so left and left_forward cannot be told apart, nor right and
    right_forward; and the circle is green exactly when the sensor is
    active.  A name with no character raises IndexError. *)
Theorem debug_label_tells_side_and_reading :
  forall (n1 n2 : SensorName) (pos1 pos2 : Q * Q) (a1 a2 : bool),
    exists m1 m2,
      debug_marker (sensor_name_string n1) pos1 a1 = Ok m1
      /\ debug_marker (sensor_name_string n2) pos2 a2 = Ok m2
      /\ (label m1 = label m2 <-> side_of n1 = side_of n2 /\ a1 = a2)
      /\ (circle_color m1 = SENSOR_COLOR_ACTIVE <-> a1 = true)
      /\ debug_marker EmptyString pos1 a1 = Raise IndexError.
Proof.
  intros n1 n2 pos1 pos2 a1 a2.
  destruct n1, n2, a1, a2; do 2 eexists;
    (split; [reflexivity |]); (split; [reflexivity |]);
    (split; [| split; [| reflexivity]]); vm_compute;
    (split;
     [ intros H; first [discriminate H | split; reflexivity]
     | first [ intros [H1 H2]; first [discriminate H1 | discriminate H2]
             | intros H; discriminate H
             | reflexivity ] ]).
Qed.
